(** * F&O News Dashboard: the news retrieval core of [app.py]

    A shallow embedding of the retrieval functions of [app.py]
    ([fetch_news_newsapi], [fetch_news_rss], [get_news] and the construction
    of [full_query]) together with the Python operations they rely on
    (dictionaries, [str.strip], [sorted], slicing, [datetime] arithmetic).

    Conventions.
    - A Python [str] is a [string] holding its UTF-8 encoding; the order of
      the bytes is the order of the code points, so [String.ltb] is Python's
      [<] on [str].
    - Python values that travel through the code (decoded JSON, feed fields,
      article dictionaries) are values of [pyval]; JSON numbers are modelled
      for integer literals only.
    - A computation that may raise returns a [result]; the functions that
      talk to the outside world run in the monad [M], which threads the log
      of external calls. *)

From Stdlib Require Import ZArith List String Ascii Bool Lia.
From Stdlib Require Import Sorted Permutation.
Import ListNotations.
Local Open Scope string_scope.
Local Open Scope Z_scope.
Set Warnings "-register-all".

(** ** Exceptions and results *)

(** The exception classes that occur; all of them derive from [Exception],
    so that the [except Exception] clause of [get_news] catches every one. *)
Inductive exn : Type :=
| RuntimeError (msg : string)
| TypeError
| AttributeError
| ValueError
| OverflowError
| RequestException (msg : string)
| OSError (msg : string).

Inductive result (A : Type) : Type :=
| Ok (a : A)
| Raise (e : exn).
Arguments Ok {A} a.
Arguments Raise {A} e.

Definition rbind {A B} (r : result A) (k : A -> result B) : result B :=
  match r with
  | Ok a => k a
  | Raise e => Raise e
  end.

Notation "'let?' x ':=' c 'in' k" := (rbind c (fun x => k))
  (at level 10, x name, c at level 100, k at level 200).

(** ** Python values *)

Inductive pyval : Type :=
| PNone
| PBool (b : bool)
| PInt (z : Z)
| PStr (s : string)
| PList (l : list pyval)
| PDict (d : list (string * pyval)).

(** A [dict] with [str] keys, as the list of its items (keys distinct). *)
Definition dict := list (string * pyval).

Fixpoint lookup (k : string) (d : dict) : option pyval :=
  match d with
  | [] => None
  | (k', v) :: d' => if String.eqb k k' then Some v else lookup k d'
  end.

(** [d.get(k, default)] on a dictionary. *)
Definition dict_get (d : dict) (k : string) (default : pyval) : pyval :=
  match lookup k d with
  | Some v => v
  | None => default
  end.

(** [v.get(k, default)] on an arbitrary value: only dictionaries have the
    attribute [get]. *)
Definition py_get (v : pyval) (k : string) (default : pyval) : result pyval :=
  match v with
  | PDict d => Ok (dict_get d k default)
  | _ => Raise AttributeError
  end.

(** [isinstance(v, dict)]. *)
Definition is_dict (v : pyval) : bool :=
  match v with
  | PDict _ => true
  | _ => false
  end.

(** Truth value of a Python value. *)
Definition truthy (v : pyval) : bool :=
  match v with
  | PNone => false
  | PBool b => b
  | PInt z => negb (z =? 0)
  | PStr s => negb (String.eqb s "")
  | PList l => match l with [] => false | _ => true end
  | PDict d => match d with [] => false | _ => true end
  end.

(** *** Characters of a [str] *)

(** A byte [10xxxxxx] continues the character begun before it. *)
Definition is_continuation (c : ascii) : bool :=
  let n := N_of_ascii c in ((128 <=? n) && (n <? 192))%N.

(** The characters of a [str], each as a one-character [str]. *)
Fixpoint utf8_chars (s : string) : list string :=
  match s with
  | EmptyString => []
  | String c s' =>
      match utf8_chars s' with
      | [] => [String c ""]
      | ch :: rest =>
          match ch with
          | String c' _ =>
              if is_continuation c' then String c ch :: rest
              else String c "" :: ch :: rest
          | EmptyString => String c "" :: rest
          end
      end
  end.

(** Iteration [for a in v]. *)
Definition py_iter (v : pyval) : result (list pyval) :=
  match v with
  | PList l => Ok l
  | PStr s => Ok (map PStr (utf8_chars s))
  | PDict d => Ok (map (fun kv => PStr (fst kv)) d)
  | _ => Raise TypeError
  end.

(** *** Comparison of values *)

Definition int_of_bool (b : bool) : Z := if b then 1 else 0.

(** [a == b]. *)
Fixpoint py_eq (a b : pyval) : bool :=
  match a, b with
  | PNone, PNone => true
  | PBool x, PBool y => Bool.eqb x y
  | PBool x, PInt y => int_of_bool x =? y
  | PInt x, PBool y => x =? int_of_bool y
  | PInt x, PInt y => x =? y
  | PStr x, PStr y => String.eqb x y
  | PList xs, PList ys =>
      (fix go (xs ys : list pyval) {struct xs} : bool :=
         match xs, ys with
         | [], [] => true
         | x :: xs', y :: ys' => py_eq x y && go xs' ys'
         | _, _ => false
         end) xs ys
  | PDict xs, PDict ys =>
      (List.length xs =? List.length ys)%nat &&
      (fix go (xs : list (string * pyval)) {struct xs} : bool :=
         match xs with
         | [] => true
         | (k, v) :: xs' =>
             match lookup k ys with
             | Some v' => py_eq v v' && go xs'
             | None => false
             end
         end) xs
  | _, _ => false
  end.

(** [a < b]; unorderable operands raise [TypeError]. *)
Fixpoint py_lt (a b : pyval) : result bool :=
  match a, b with
  | PStr x, PStr y => Ok (String.ltb x y)
  | PInt x, PInt y => Ok (x <? y)
  | PInt x, PBool y => Ok (x <? int_of_bool y)
  | PBool x, PInt y => Ok (int_of_bool x <? y)
  | PBool x, PBool y => Ok (int_of_bool x <? int_of_bool y)
  | PList xs, PList ys =>
      (fix go (xs ys : list pyval) {struct xs} : result bool :=
         match xs, ys with
         | [], [] => Ok false
         | [], _ :: _ => Ok true
         | _ :: _, [] => Ok false
         | x :: xs', y :: ys' => if py_eq x y then go xs' ys' else py_lt x y
         end) xs ys
  | _, _ => Raise TypeError
  end.

(** *** [str.strip] *)

(** Whitespace in the sense of [str.isspace], on a one-character [str]:
    U+0009..U+000D, U+001C..U+0020, U+0085, U+00A0, U+1680, U+2000..U+200A,
    U+2028, U+2029, U+202F, U+205F and U+3000. *)
Definition is_space (ch : string) : bool :=
  match map N_of_ascii (list_ascii_of_string ch) with
  | [n] => ((9 <=? n) && (n <=? 13) || (28 <=? n) && (n <=? 32))%N
  | [194; n] => ((n =? 133) || (n =? 160))%N
  | [225; 154; 128] => true
  | [226; 128; n] =>
      ((128 <=? n) && (n <=? 138) || (n =? 168) || (n =? 169) || (n =? 175))%N
  | [226; 129; 159] => true
  | [227; 128; 128] => true
  | _ => false
  end%N.

Fixpoint lstrip_chars (l : list string) : list string :=
  match l with
  | [] => []
  | ch :: l' => if is_space ch then lstrip_chars l' else l
  end.

(** [s.strip()]. *)
Definition str_strip (s : string) : string :=
  String.concat ""
    (rev (lstrip_chars (rev (lstrip_chars (utf8_chars s))))).

(** ** Dates and times *)

(** A naive [datetime], by its fields. *)
Record datetime : Type := mk_datetime {
  year : Z; month : Z; day : Z;
  hour : Z; minute : Z; second : Z; microsecond : Z
}.

Definition MAXORDINAL : Z := 3652059.
Definition DAYS_IN_MONTH : list Z :=
  [-1; 31; 28; 31; 30; 31; 30; 31; 31; 30; 31; 30; 31].
Definition DAYS_BEFORE_MONTH : list Z :=
  [-1; 0; 31; 59; 90; 120; 151; 181; 212; 243; 273; 304; 334].

Definition is_leap (y : Z) : bool :=
  (y mod 4 =? 0) && (negb (y mod 100 =? 0) || (y mod 400 =? 0)).

Definition days_before_year (y : Z) : Z :=
  let y := y - 1 in y * 365 + y / 4 - y / 100 + y / 400.

Definition days_in_month (y m : Z) : Z :=
  if (m =? 2) && is_leap y then 29 else nth (Z.to_nat m) DAYS_IN_MONTH 0.

Definition days_before_month (y m : Z) : Z :=
  nth (Z.to_nat m) DAYS_BEFORE_MONTH 0
  + int_of_bool ((2 <? m) && is_leap y).

Definition ymd2ord (y m d : Z) : Z :=
  days_before_year y + days_before_month y m + d.

Definition ord2ymd (n : Z) : Z * Z * Z :=
  let n := n - 1 in
  let n400 := n / 146097 in
  let n := n mod 146097 in
  let y := n400 * 400 + 1 in
  let n100 := n / 36524 in
  let n := n mod 36524 in
  let n4 := n / 1461 in
  let n := n mod 1461 in
  let n1 := n / 365 in
  let n := n mod 365 in
  let y := y + n100 * 100 + n4 * 4 + n1 in
  if (n1 =? 4) || (n100 =? 4) then (y - 1, 12, 31)
  else
    let leapyear := (n1 =? 3) && (negb (n4 =? 24) || (n100 =? 3)) in
    let m := Z.shiftr (n + 50) 5 in
    let preceding :=
      nth (Z.to_nat m) DAYS_BEFORE_MONTH 0
      + int_of_bool ((2 <? m) && leapyear) in
    if n <? preceding then
      let m := m - 1 in
      let preceding :=
        preceding
        - (nth (Z.to_nat m) DAYS_IN_MONTH 0
           + int_of_bool ((m =? 2) && leapyear)) in
      (y, m, n - preceding + 1)
    else (y, m, n - preceding + 1).

Definition toordinal (d : datetime) : Z := ymd2ord (year d) (month d) (day d).

(** [datetime(y, m, d, hh, mm, ss)]: the constructor checks its fields. *)
Definition datetime_new (y m d hh mm ss : Z) : result datetime :=
  if (1 <=? y) && (y <=? 9999) && (1 <=? m) && (m <=? 12)
     && (1 <=? d) && (d <=? days_in_month y m)
     && (0 <=? hh) && (hh <=? 23) && (0 <=? mm) && (mm <=? 59)
     && (0 <=? ss) && (ss <=? 59)
  then Ok (mk_datetime y m d hh mm ss 0)
  else Raise ValueError.

(** [d - timedelta(days=days)]. *)
Definition datetime_sub_days (d : datetime) (days : Z) : result datetime :=
  if 999999999 <? Z.abs days then Raise OverflowError
  else
    let n := toordinal d - days in
    if (0 <? n) && (n <=? MAXORDINAL) then
      let '(y, m, dd) := ord2ymd n in
      Ok (mk_datetime y m dd (hour d) (minute d) (second d) (microsecond d))
    else Raise OverflowError.

Fixpoint lex_lt (a b : list Z) : bool :=
  match a, b with
  | x :: a', y :: b' => (x <? y) || ((x =? y) && lex_lt a' b')
  | [], _ :: _ => true
  | _, [] => false
  end.

Definition datetime_fields (d : datetime) : list Z :=
  [year d; month d; day d; hour d; minute d; second d; microsecond d].

(** [a < b] on naive datetimes. *)
Definition datetime_lt (a b : datetime) : bool :=
  lex_lt (datetime_fields a) (datetime_fields b).

(** The decimal digits of [n], zero-padded to width [w]. *)
Fixpoint zero_padded (w : nat) (n : Z) : string :=
  match w with
  | O => ""
  | S w' =>
      zero_padded w' (n / 10)
      ++ String (ascii_of_N (48 + Z.to_N (n mod 10))) ""
  end.

(** [d.isoformat()]. *)
Definition isoformat (d : datetime) : string :=
  zero_padded 4 (year d) ++ "-" ++ zero_padded 2 (month d) ++ "-"
  ++ zero_padded 2 (day d) ++ "T" ++ zero_padded 2 (hour d) ++ ":"
  ++ zero_padded 2 (minute d) ++ ":" ++ zero_padded 2 (second d)
  ++ (if microsecond d =? 0 then ""
      else "." ++ zero_padded 6 (microsecond d)).

(** ** Sorting and slicing *)

Section Sorted.
Context {A : Type} (key : A -> pyval).

(** Insertion into a list already in descending key order; [x] stood
    before the elements of [l] in the input and stays before those whose
    key is not greater. *)
Fixpoint insert_desc (x : A) (l : list A) : result (list A) :=
  match l with
  | [] => Ok [x]
  | y :: l' =>
      let? smaller := py_lt (key x) (key y) in
      if smaller then
        let? r := insert_desc x l' in Ok (y :: r)
      else Ok (x :: l)
  end.

(** [sorted(l, key=key, reverse=True)]: a stable sort into descending key
    order that compares keys with [<]; a comparison that raises makes the
    call raise.  As in CPython's [list.sort], every element takes part in
    a comparison as soon as the list has two elements. *)
Fixpoint sorted_reverse (l : list A) : result (list A) :=
  match l with
  | [] => Ok []
  | x :: l' => let? s := sorted_reverse l' in insert_desc x s
  end.

(** An element whose key is a string. *)
Definition str_key (x : A) : Prop := exists s, key x = PStr s.
End Sorted.

(** ** Articles *)

(** An article is the dictionary the fetchers build. *)
Definition article := dict.

(** The sort key of [get_news]: [lambda x: x.get("publishedAt", "")]. *)
Definition sort_key (x : article) : pyval := dict_get x "publishedAt" (PStr "").

(** ** The outside world *)

(** The first six fields of a [time.struct_time]. *)
Record struct_time : Type := mk_struct_time {
  tm_year : Z; tm_mon : Z; tm_mday : Z;
  tm_hour : Z; tm_min : Z; tm_sec : Z
}.

(** An entry of a parsed feed: its [published_parsed] attribute ([None]
    when the attribute is missing or is [None]) and its other fields. *)
Record entry : Type := mk_entry {
  published_parsed : option struct_time;
  fields : dict
}.

(** [e.get(k, default)] on a feed entry. *)
Definition entry_get (e : entry) (k : string) (default : pyval) : pyval :=
  dict_get (fields e) k default.

(** An HTTP response; [json] is the outcome of [r.json()]. *)
Record response : Type := mk_response {
  json : result pyval
}.

(** What the process finds outside: the environment variable, the clock, and
    the outcome of the two network calls.  [requests_get] receives the
    parameters [q], [from] and [apiKey] of the request; [feedparser_parse]
    receives the query the feed URL is built from. *)
Record world : Type := mk_world {
  NEWSAPI_KEY : option string;
  utcnow : datetime;
  requests_get : string -> string -> option string -> result response;
  feedparser_parse : string -> result (list entry)
}.

(** The value [os.getenv] hands back. *)
Definition env_value (v : option string) : pyval :=
  match v with
  | Some s => PStr s
  | None => PNone
  end.

(** ** Computations with a log of fetcher calls *)

Inductive event : Type :=
| CallPrimary (query : string) (from_date : datetime)
| CallFallback (query : string) (from_date : datetime).

Definition trace := list event.

Definition M (A : Type) : Type := trace -> result A * trace.

Definition ret {A} (a : A) : M A := fun t => (Ok a, t).

Definition lift {A} (r : result A) : M A := fun t => (r, t).

Definition raise {A} (e : exn) : M A := lift (Raise e).

Definition bind {A B} (m : M A) (k : A -> M B) : M B :=
  fun t =>
    match m t with
    | (Ok a, t') => k a t'
    | (Raise e, t') => (Raise e, t')
    end.

Definition emit (ev : event) : M unit := fun t => (Ok tt, (t ++ [ev])%list).

(** [try: body  except Exception: handler]. *)
Definition try_except {A} (body handler : M A) : M A :=
  fun t =>
    match body t with
    | (Ok a, t') => (Ok a, t')
    | (Raise _, t') => handler t'
    end.

Declare Scope M_scope.
Delimit Scope M_scope with M.
Notation "x <- c ;; k" := (bind c (fun x => k))
  (at level 61, c at next level, right associativity) : M_scope.
Notation "c ;; k" := (bind c (fun _ => k))
  (at level 61, right associativity) : M_scope.

(** Running a computation from the empty log. *)
Definition run {A} (m : M A) : result A * trace := m [].

(** ** The fetchers *)

(** The dictionary built for one record of the API response. *)
Definition newsapi_article (a : pyval) : result article :=
  let? title := py_get a "title" PNone in
  let? source := py_get a "source" (PDict []) in
  let? name := py_get source "name" PNone in
  let? url := py_get a "url" PNone in
  let? publishedAt := py_get a "publishedAt" PNone in
  let? description := py_get a "description" PNone in
  Ok [("title", title); ("source", name); ("url", url);
      ("publishedAt", publishedAt); ("description", description)].

(** The loop [for a in ...: arts.append({...})]. *)
Fixpoint newsapi_loop (items : list pyval) (arts : list article)
  : result (list article) :=
  match items with
  | [] => Ok arts
  | a :: rest =>
      let? art := newsapi_article a in
      newsapi_loop rest (arts ++ [art])%list
  end.

(** What [fetch_news_newsapi] does with the response. *)
Definition newsapi_articles (r : response) : result (list article) :=
  let? data := json r in
  let? articles := py_get data "articles" (PList []) in
  let? items := py_iter articles in
  newsapi_loop items [].

(** The outcome of the body of [fetch_news_newsapi]: the request, then the
    decoding of its response. *)
Definition newsapi_outcome (w : world) (query : string)
  (from_date : datetime) : result (list article) :=
  let? r := requests_get w query (isoformat from_date) (NEWSAPI_KEY w) in
  newsapi_articles r.

Definition fetch_news_newsapi (w : world) (query : string)
  (from_date : datetime) : M (list article) :=
  (emit (CallPrimary query from_date) ;;
   lift (newsapi_outcome w query from_date))%M.

(** [pub] of a feed entry: the [datetime] built from the first six fields
    of [e.published_parsed] when the attribute is there and true, else
    [None]. *)
Definition entry_pub (e : entry) : result (option datetime) :=
  match published_parsed e with
  | Some t =>
      let? p := datetime_new (tm_year t) (tm_mon t) (tm_mday t)
                  (tm_hour t) (tm_min t) (tm_sec t) in
      Ok (Some p)
  | None => Ok None
  end.

(** The test [pub and pub < from_date]. *)
Definition too_old (pub : option datetime) (from_date : datetime) : bool :=
  match pub with
  | Some p => datetime_lt p from_date
  | None => false
  end.

(** The dictionary built for one feed entry. *)
Definition rss_article (e : entry) (pub : option datetime) : result article :=
  let title := entry_get e "title" PNone in
  let url := entry_get e "link" PNone in
  let? source :=
    if is_dict (entry_get e "source" PNone)
    then py_get (entry_get e "source" (PDict [])) "title" PNone
    else Ok (entry_get e "source" PNone) in
  let publishedAt :=
    match pub with
    | Some p => PStr (isoformat p)
    | None => PNone
    end in
  let description := entry_get e "summary" PNone in
  Ok [("title", title); ("url", url); ("source", source);
      ("publishedAt", publishedAt); ("description", description)].

(** The loop over [d.entries]. *)
Fixpoint rss_loop (from_date : datetime) (entries : list entry)
  (arts : list article) : result (list article) :=
  match entries with
  | [] => Ok arts
  | e :: rest =>
      let? pub := entry_pub e in
      if too_old pub from_date then rss_loop from_date rest arts
      else
        let? art := rss_article e pub in
        rss_loop from_date rest (arts ++ [art])%list
  end.

(** The outcome of the body of [fetch_news_rss]: the parsed feed, then the
    loop over its entries. *)
Definition rss_outcome (w : world) (query : string)
  (from_date : datetime) : result (list article) :=
  let? entries := feedparser_parse w query in
  rss_loop from_date entries [].

Definition fetch_news_rss (w : world) (query : string)
  (from_date : datetime) : M (list article) :=
  (emit (CallFallback query from_date) ;;
   lift (rss_outcome w query from_date))%M.

(** ** The orchestrator *)

(** [sorted(news, key=..., reverse=True)[:50]]. *)
Definition newest_50 (news : list article) : result (list article) :=
  let? s := sorted_reverse sort_key news in Ok (firstn 50 s).

(** The body of the [try] block of [get_news]. *)
Definition primary_attempt (w : world) (query : string)
  (from_date : datetime) : M (list article) :=
  if truthy (env_value (NEWSAPI_KEY w))
  then fetch_news_newsapi w query from_date
  else raise (RuntimeError "No NewsAPI key, fallback").

Definition get_news (w : world) (days : Z) (query : string)
  : M (list article) :=
  (from_date <- lift (datetime_sub_days (utcnow w) days) ;;
   news <- try_except (primary_attempt w query from_date)
                      (fetch_news_rss w query from_date) ;;
   lift (newest_50 news))%M.

(** ** Reading the log *)

Definition is_primary (ev : event) : bool :=
  match ev with
  | CallPrimary _ _ => true
  | CallFallback _ _ => false
  end.

Definition is_fallback (ev : event) : bool := negb (is_primary ev).

Definition primary_calls (t : trace) : nat := List.length (filter is_primary t).
Definition fallback_calls (t : trace) : nat :=
  List.length (filter is_fallback t).

(** ** The query *)

Definition DEFAULT_QUERY : string :=
  "F&O OR " ++ String (ascii_of_N 34) "futures and options"
  ++ String (ascii_of_N 34) " OR derivatives OR "
  ++ String (ascii_of_N 34) "F and O" ++ String (ascii_of_N 34) " OR "
  ++ String (ascii_of_N 34) "options" ++ String (ascii_of_N 34) " OR "
  ++ String (ascii_of_N 34) "futures" ++ String (ascii_of_N 34) "".

(** The query the sidebar builds from the keyword filter. *)
Definition full_query (query : string) : string :=
  if truthy (PStr (str_strip query))
  then DEFAULT_QUERY ++ " OR (" ++ str_strip query ++ ")"
  else DEFAULT_QUERY.

(** ** Notions the properties are stated with *)

(** The timestamp of an article, when it is a string. *)
Definition published_at (x : article) : option string :=
  match lookup "publishedAt" x with
  | Some (PStr s) => Some s
  | _ => None
  end.

(** The timestamp as it is ordered: an absent one counts as the empty
    string, the least of all strings. *)
Definition stamp (x : article) : string :=
  match published_at x with
  | Some s => s
  | None => ""
  end.

(** The order of the result: [a] is at least as recent as [b], comparing
    the timestamps as strings. *)
Definition newer_or_equal (a b : article) : bool :=
  String.leb (stamp b) (stamp a).

(** An article whose timestamp is a string or [None]. *)
Definition timestamp_ok (x : article) : Prop :=
  sort_key x = PNone \/ exists s, sort_key x = PStr s.

(** Descending order as the sort establishes it: no article is followed by
    one with a greater key. *)
Definition not_below (a b : article) : Prop :=
  py_lt (sort_key a) (sort_key b) = Ok false.

(** The [source] value of a feed article: the title of a source object, the
    value itself otherwise. *)
Definition rss_source (e : entry) : pyval :=
  match lookup "source" (fields e) with
  | Some (PDict d) => dict_get d "title" PNone
  | Some v => v
  | None => PNone
  end.

Definition rss_published_at (pub : option datetime) : pyval :=
  match pub with
  | Some p => PStr (isoformat p)
  | None => PNone
  end.

(** The article [fetch_news_rss] appends for an entry it keeps. *)
Definition rss_article_of (e : entry) (pub : option datetime) : article :=
  [("title", entry_get e "title" PNone);
   ("url", entry_get e "link" PNone);
   ("source", rss_source e);
   ("publishedAt", rss_published_at pub);
   ("description", entry_get e "summary" PNone)].

(** An entry whose time fields form a date, or that has none. *)
Definition entry_valid (e : entry) : Prop := exists pub, entry_pub e = Ok pub.

(** ** Sample feeds and responses *)

(** The clock of the samples: 15 March 2024, 09:30:00.25 UTC. *)
Definition sample_now : datetime := mk_datetime 2024 3 15 9 30 0 250000.

(** Seven days before [sample_now]. *)
Definition sample_from : datetime := mk_datetime 2024 3 8 9 30 0 250000.

(** A feed entry published two days before [sample_now]. *)
Definition entry_recent : entry :=
  mk_entry (Some (mk_struct_time 2024 3 13 9 30 0))
    [("title", PStr "Nifty options open interest climbs");
     ("link", PStr "https://news.example/nifty-oi");
     ("source", PDict [("href", PStr "https://mint.example");
                       ("title", PStr "Mint")]);
     ("summary", PStr "Open interest rose ahead of expiry.")].

(** A feed entry published ten days before [sample_now]. *)
Definition entry_stale : entry :=
  mk_entry (Some (mk_struct_time 2024 3 5 9 30 0))
    [("title", PStr "Futures rollover data");
     ("link", PStr "https://news.example/rollover")].

(** A feed entry without a publication time. *)
Definition entry_undated : entry :=
  mk_entry None
    [("title", PStr "What are derivatives?");
     ("link", PStr "https://news.example/explainer")].

(** A process without [NEWSAPI_KEY] whose feed holds [entries]. *)
Definition world_no_key (entries : list entry) : world :=
  mk_world None sample_now
    (fun _ _ _ => Raise (RequestException "not reachable"))
    (fun _ => Ok entries).

(** A process with a key whose request to the API times out. *)
Definition world_timeout : world :=
  mk_world (Some "k3y") sample_now
    (fun _ _ _ => Raise (RequestException "timed out"))
    (fun _ => Ok [entry_recent]).

(** The same process when the feed also holds an entry without a
    publication time. *)
Definition world_timeout_undated : world :=
  mk_world (Some "k3y") sample_now
    (fun _ _ _ => Raise (RequestException "timed out"))
    (fun _ => Ok [entry_recent; entry_undated]).

(** A record of the API whose [source] is the JSON [null]. *)
Definition record_null_source : pyval :=
  PDict [("source", PNone);
         ("title", PStr "Sensex futures edge higher");
         ("url", PStr "https://news.example/sensex");
         ("publishedAt", PStr "2024-03-14T10:00:00Z")].

(** A well-formed record of the API. *)
Definition record_with_source : pyval :=
  PDict [("source", PDict [("id", PNone); ("name", PStr "Mint")]);
         ("title", PStr "Bank Nifty futures slide");
         ("url", PStr "https://news.example/banknifty");
         ("publishedAt", PStr "2024-03-14T11:00:00Z")].

(** A feed entry of the shape of [record_null_source]: its [source] is
    [None]. *)
Definition entry_null_source : entry :=
  mk_entry (Some (mk_struct_time 2024 3 14 10 0 0))
    [("title", PStr "Sensex futures edge higher");
     ("link", PStr "https://news.example/sensex");
     ("source", PNone)].

(** A process with a key whose request returns [record_with_source] and
    [record_null_source]. *)
Definition world_null_source : world :=
  mk_world (Some "k3y") sample_now
    (fun _ _ _ =>
       Ok (mk_response
             (Ok (PDict [("status", PStr "ok"); ("totalResults", PInt 2);
                         ("articles",
                           PList [record_with_source;
                                  record_null_source])]))))
    (fun _ => Ok [entry_recent]).

(** The body the API answers a rejected key with: an object without
    [articles]. *)
Definition error_body : dict :=
  [("status", PStr "error"); ("code", PStr "apiKeyInvalid");
   ("message", PStr "Your API key is invalid or incorrect.")].

(** A process whose key the API rejects, while the feed has an entry. *)
Definition world_rejected_key : world :=
  mk_world (Some "k3y") sample_now
    (fun _ _ _ => Ok (mk_response (Ok (PDict error_body))))
    (fun _ => Ok [entry_recent]).

(** Sixty records of the API, one per minute. *)
Definition sixty_records : list pyval :=
  map (fun i =>
         PDict [("source", PDict [("id", PNone); ("name", PStr "Mint")]);
                ("title", PStr ("Headline " ++ zero_padded 2 (Z.of_nat i)));
                ("url", PStr "https://news.example/item");
                ("publishedAt",
                  PStr (isoformat (mk_datetime 2024 3 14 10 (Z.of_nat i) 0 0)
                        ++ "Z"));
                ("content", PNone)])
      (seq 0 60).

(** A process with a key whose request returns [sixty_records]. *)
Definition world_sixty : world :=
  mk_world (Some "k3y") sample_now
    (fun _ _ _ =>
       Ok (mk_response
             (Ok (PDict [("status", PStr "ok"); ("totalResults", PInt 60);
                         ("articles", PList sixty_records)]))))
    (fun _ => Ok [entry_recent]).

(** [w] with the environment variable unset. *)
Definition without_key (w : world) : world :=
  mk_world None (utcnow w) (requests_get w) (feedparser_parse w).

(** The process of [world_timeout] with the key set to the empty string. *)
Definition world_empty_key : world :=
  mk_world (Some "") sample_now (requests_get world_timeout)
    (feedparser_parse world_timeout).

(** ** Notions for the fetchers' results *)

(** The publish time of a feed entry, [None] also when its time fields form
    no date. *)
Definition pub_of (e : entry) : option datetime :=
  match entry_pub e with
  | Ok pub => pub
  | Raise _ => None
  end.

(** The entries [fetch_news_rss] keeps. *)
Definition kept (from_date : datetime) (e : entry) : bool :=
  negb (too_old (pub_of e) from_date).

(** A record of the API that [fetch_news_newsapi] can turn into an article:
    an object whose [source], when there is one, is an object. *)
Definition record_ok (a : pyval) : bool :=
  match a with
  | PDict d =>
      match lookup "source" d with
      | Some v => is_dict v
      | None => true
      end
  | _ => false
  end.

(** The article of such a record. *)
Definition newsapi_article_of (a : pyval) : article :=
  match a with
  | PDict d =>
      [("title", dict_get d "title" PNone);
       ("source",
         match lookup "source" d with
         | Some (PDict sd) => dict_get sd "name" PNone
         | _ => PNone
         end);
       ("url", dict_get d "url" PNone);
       ("publishedAt", dict_get d "publishedAt" PNone);
       ("description", dict_get d "description" PNone)]
  | _ => []
  end.

(** The keys of an article. *)
Definition article_keys : list string :=
  ["title"; "source"; "url"; "publishedAt"; "description"].

(** A dictionary with exactly the keys of an article. *)
Definition well_shaped (art : article) : Prop :=
  Permutation (map fst art) article_keys.

(** ** Notions for the calendar *)

(** The date of the day with ordinal [n], as year, month and day. *)
Definition date_triple (n : Z) : list Z :=
  let '(y, m, d) := ord2ymd n in [y; m; d].

(** The month and the day of the month of the day [n], counted from 0, of a
    year: the last steps of [ord2ymd]. *)
Definition month_day (n : Z) (leapyear : bool) : Z * Z :=
  let m := Z.shiftr (n + 50) 5 in
  let preceding :=
    nth (Z.to_nat m) DAYS_BEFORE_MONTH 0
    + int_of_bool ((2 <? m) && leapyear) in
  if n <? preceding then
    let m := m - 1 in
    let preceding :=
      preceding
      - (nth (Z.to_nat m) DAYS_IN_MONTH 0
         + int_of_bool ((m =? 2) && leapyear)) in
    (m, n - preceding + 1)
  else (m, n - preceding + 1).

(** The days of a month and the days before it, by the kind of year. *)
Definition month_length (m : Z) (leapyear : bool) : Z :=
  if (m =? 2) && leapyear then 29 else nth (Z.to_nat m) DAYS_IN_MONTH 0.

Definition month_start (m : Z) (leapyear : bool) : Z :=
  nth (Z.to_nat m) DAYS_BEFORE_MONTH 0 + int_of_bool ((2 <? m) && leapyear).

(** What is checked of each day of a year: its month and day are in range
    and lead back to it. *)
Definition month_day_ok (leapyear : bool) (n : Z) : bool :=
  let '(m, d) := month_day n leapyear in
  (1 <=? m) && (m <=? 12) && (1 <=? d) && (d <=? month_length m leapyear)
  && (month_start m leapyear + d =? n + 1).

(** What is checked of each month: it ends where the next one starts, or
    where the year ends. *)
Definition month_ok (leapyear : bool) (m : Z) : bool :=
  (0 <=? month_start m leapyear) && (1 <=? month_length m leapyear)
  && (month_start m leapyear + month_length m leapyear
      =? (if m =? 12 then 365 + int_of_bool leapyear
          else month_start (m + 1) leapyear)).

(** A comparison that says less. *)
Definition is_lt (c : comparison) : bool :=
  match c with
  | Lt => true
  | _ => false
  end.

(** ** The tabs of the page *)

(** The calls of the page to the interface library, in the order they are
    made.  A formatted text is recorded by the values it is built from. *)
Inductive widget : Type :=
| Subheader (days : Z)
| Info
| Columns
| Link (title url : pyval)
| Caption (source publishedAt : pyval)
| Write (description : pyval)
| Blank
| Rule.

(** What stops the script: an exception out of [get_news], or the
    [KeyError] of a subscript. *)
Inductive failure : Type :=
| Raised (e : exn)
| KeyError (key : string).

(** The body of the loop [for art in news], from the widgets [ws] shown so
    far. *)
Definition render_article (art : article) (ws : list widget)
  : list widget * option failure :=
  let ws := (ws ++ [Columns])%list in
  match lookup "title" art with
  | None => (ws, Some (KeyError "title"))
  | Some title =>
      match lookup "url" art with
      | None => (ws, Some (KeyError "url"))
      | Some url =>
          let ws :=
            (ws ++ [Link title url;
                    Caption (dict_get art "source" (PStr ""))
                      (dict_get art "publishedAt" (PStr ""))])%list in
          if truthy (dict_get art "description" PNone) then
            match lookup "description" art with
            | None => (ws, Some (KeyError "description"))
            | Some description =>
                ((ws ++ [Write description; Blank; Rule])%list, None)
            end
          else ((ws ++ [Blank; Rule])%list, None)
      end
  end.

Fixpoint render_articles (news : list article) (ws : list widget)
  : list widget * option failure :=
  match news with
  | [] => (ws, None)
  | art :: rest =>
      match render_article art ws with
      | (ws', None) => render_articles rest ws'
      | stopped => stopped
      end
  end.

(** What is on the page and what was fetched so far. *)
Record page : Type := mk_page {
  widgets : list widget;
  calls : trace;
  stopped_by : option failure
}.

(** The body of the loop over the tabs, for the window of [days] days. *)
Definition render_tab (w : world) (query : string) (days : Z)
  (ws : list widget) (t : trace) : page :=
  let ws := (ws ++ [Subheader days])%list in
  match get_news w days query t with
  | (Raise e, t') => mk_page ws t' (Some (Raised e))
  | (Ok news, t') =>
      let ws :=
        match news with
        | [] => (ws ++ [Info])%list
        | _ :: _ => ws
        end in
      let '(ws', stopped) := render_articles news ws in
      mk_page ws' t' stopped
  end.

Fixpoint render_tabs (w : world) (query : string) (tabs : list Z)
  (ws : list widget) (t : trace) : page :=
  match tabs with
  | [] => mk_page ws t None
  | days :: rest =>
      match render_tab w query days ws t with
      | mk_page ws' t' None => render_tabs w query rest ws' t'
      | stopped => stopped
      end
  end.

(** The windows of the four tabs. *)
Definition tabs : list Z := [7; 30; 90; 180].

(** The tabs of the page for the keyword filter of the sidebar. *)
Definition news_tabs (w : world) (filter : string) : page :=
  render_tabs w (full_query filter) tabs [] [].

(** The widgets of one article. *)
Definition article_widgets (art : article) : list widget :=
  ([Columns;
    Link (dict_get art "title" PNone) (dict_get art "url" PNone);
    Caption (dict_get art "source" (PStr ""))
      (dict_get art "publishedAt" (PStr ""))]
   ++ (if truthy (dict_get art "description" PNone)
       then [Write (dict_get art "description" PNone)]
       else [])
   ++ [Blank; Rule])%list.

(** The widgets of a tab whose list of articles is [news]. *)
Definition tab_widgets (days : Z) (news : list article) : list widget :=
  (Subheader days
   :: (match news with [] => [Info] | _ => [] end)
   ++ flat_map article_widgets news)%list.

Definition is_rule (x : widget) : bool :=
  match x with
  | Rule => true
  | _ => false
  end.

(** The windows that are fetched: up to the first at which [get_news]
    raises, this one included. *)
Fixpoint fetched_windows (w : world) (query : string) (tabs : list Z)
  : list Z :=
  match tabs with
  | [] => []
  | days :: rest =>
      match fst (run (get_news w days query)) with
      | Ok _ => days :: fetched_windows w query rest
      | Raise _ => [days]
      end
  end.

(** The first exception [get_news] raises over the windows, if any. *)
Fixpoint first_failure (w : world) (query : string) (tabs : list Z)
  : option failure :=
  match tabs with
  | [] => None
  | days :: rest =>
      match fst (run (get_news w days query)) with
      | Ok _ => first_failure w query rest
      | Raise e => Some (Raised e)
      end
  end.

(** The log of the fetcher calls of one window. *)
Definition window_calls (w : world) (query : string) (days : Z) : trace :=
  snd (run (get_news w days query)).

(** What a fetched window shows: its tab, or its subheader alone when
    [get_news] raised. *)
Definition window_widgets (w : world) (query : string) (days : Z)
  : list widget :=
  match fst (run (get_news w days query)) with
  | Ok news => tab_widgets days news
  | Raise _ => [Subheader days]
  end.

(** * Properties *)

(** ** The calendar, formatting and stripping on examples *)

Example ord2ymd_1 : ord2ymd 1 = (1, 1, 1). Proof. reflexivity. Qed.
Example ord2ymd_max : ord2ymd MAXORDINAL = (9999, 12, 31).
Proof. reflexivity. Qed.
Example ymd2ord_2024 : ymd2ord 2024 3 1 = 738946. Proof. reflexivity. Qed.
Example ord2ymd_2024 : ord2ymd 738946 = (2024, 3, 1). Proof. reflexivity. Qed.
Example ord2ymd_leap : ord2ymd 738945 = (2024, 2, 29). Proof. reflexivity. Qed.
Example isoformat_1 :
  isoformat (mk_datetime 2024 3 1 9 5 0 0) = "2024-03-01T09:05:00".
Proof. reflexivity. Qed.
Example isoformat_2 :
  isoformat (mk_datetime 2024 3 1 9 5 0 1200) = "2024-03-01T09:05:00.001200".
Proof. reflexivity. Qed.
Example strip_1 : str_strip "  nifty  bank " = "nifty  bank".
Proof. reflexivity. Qed.

(** ** How [get_news] runs *)

Lemma run_fetch_news_newsapi w q fd t :
  fetch_news_newsapi w q fd t
  = (newsapi_outcome w q fd, (t ++ [CallPrimary q fd])%list).
Proof. reflexivity. Qed.

Lemma run_fetch_news_rss w q fd t :
  fetch_news_rss w q fd t
  = (rss_outcome w q fd, (t ++ [CallFallback q fd])%list).
Proof. reflexivity. Qed.

Lemma run_primary_attempt w q fd :
  run (primary_attempt w q fd)
  = if truthy (env_value (NEWSAPI_KEY w))
    then (newsapi_outcome w q fd, [CallPrimary q fd])
    else (Raise (RuntimeError "No NewsAPI key, fallback"), []).
Proof.
  unfold run, primary_attempt.
  destruct (truthy (env_value (NEWSAPI_KEY w))); reflexivity.
Qed.

(** The log of the [try] body never shows a call of the fallback. *)
Lemma primary_attempt_trace w q fd :
  snd (run (primary_attempt w q fd)) = []
  \/ snd (run (primary_attempt w q fd)) = [CallPrimary q fd].
Proof.
  rewrite run_primary_attempt.
  destruct (truthy (env_value (NEWSAPI_KEY w))); simpl; auto.
Qed.

(** [get_news] once [from_date] is computed: the result of the [try] body
    when it returns, else the result of the handler; then sort and slice. *)
Lemma run_get_news w days q fd :
  datetime_sub_days (utcnow w) days = Ok fd ->
  run (get_news w days q)
  = match run (primary_attempt w q fd) with
    | (Ok news, t1) => (newest_50 news, t1)
    | (Raise _, t1) =>
        (let? news := rss_outcome w q fd in newest_50 news,
         (t1 ++ [CallFallback q fd])%list)
    end.
Proof.
  intros Hfd. unfold run, get_news, bind, try_except, lift. rewrite Hfd.
  change (primary_attempt w q fd []) with (run (primary_attempt w q fd)).
  destruct (run (primary_attempt w q fd)) as [[news | e] t1].
  - reflexivity.
  - rewrite run_fetch_news_rss. destruct (rss_outcome w q fd); reflexivity.
Qed.

(** When [from_date] cannot be computed nothing is fetched. *)
Lemma run_get_news_overflow w days q e :
  datetime_sub_days (utcnow w) days = Raise e ->
  run (get_news w days q) = (Raise e, []).
Proof.
  intros Hfd. unfold run, get_news, bind, lift. rewrite Hfd. reflexivity.
Qed.

Lemma newest_50_length news l :
  newest_50 news = Ok l -> (List.length l <= 50)%nat.
Proof.
  unfold newest_50. generalize 50%nat. intros n.
  destruct (sorted_reverse sort_key news) as [s | e];
    unfold rbind; intros H; [injection H as <- | discriminate].
  rewrite length_firstn. apply Nat.le_min_l.
Qed.

Lemma newest_50_nil : newest_50 [] = Ok [].
Proof. reflexivity. Qed.

(** ** Comparison and sorting *)

Lemma py_lt_None_l b : py_lt PNone b = Raise TypeError.
Proof. reflexivity. Qed.

Lemma py_lt_None_r a : py_lt a PNone = Raise TypeError.
Proof. destruct a; reflexivity. Qed.

(** The only exception a comparison raises is [TypeError]. *)
Lemma py_lt_error : forall a b e, py_lt a b = Raise e -> e = TypeError.
Proof.
  fix IH 1. intros a b e.
  destruct a as [ | x | x | x | xs | xd]; destruct b as [ | y | y | y | ys | yd];
    simpl; try congruence.
  revert ys. induction xs as [ | x xs IHxs]; intros [ | y ys];
    try congruence.
  destruct (py_eq x y).
  - apply IHxs.
  - apply IH.
Qed.

(** Case analysis on the computation a [let?] in [H] starts with: it
    returned [v], since [H] says that the whole returned. *)
Ltac bind_inv H v Hv :=
  match type of H with
  | rbind ?c _ = Ok _ =>
      destruct c as [v | ?] eqn:Hv; cbn [rbind] in H; [ | discriminate H]
  end.

Section SortedFacts.
Context {A : Type} (key : A -> pyval).

(** An insertion that returns has put [x] somewhere into [l]. *)
Lemma insert_desc_split x l r :
  insert_desc key x l = Ok r ->
  exists l1 l2, l = (l1 ++ l2)%list /\ r = (l1 ++ x :: l2)%list.
Proof.
  revert r. induction l as [ | y l IH]; simpl; intros r H.
  - injection H as <-. exists [], []. split; reflexivity.
  - bind_inv H smaller Hlt. destruct smaller.
    + bind_inv H r' Hr'. injection H as <-.
      destruct (IH r' eq_refl) as [l1 [l2 [-> ->]]].
      exists (y :: l1), l2. split; reflexivity.
    + injection H as <-. exists [], (y :: l). split; reflexivity.
Qed.

Lemma insert_desc_perm x l r :
  insert_desc key x l = Ok r -> Permutation (x :: l) r.
Proof.
  intros H. destruct (insert_desc_split _ _ _ H) as [l1 [l2 [-> ->]]].
  apply Permutation_middle.
Qed.

(** A sort that returns has rearranged its input. *)
Lemma sorted_reverse_perm l s :
  sorted_reverse key l = Ok s -> Permutation l s.
Proof.
  revert s. induction l as [ | x l IH]; simpl; intros s H.
  - injection H as <-. constructor.
  - bind_inv H s' Hs'.
    transitivity (x :: s'); [constructor; apply IH; reflexivity | ].
    exact (insert_desc_perm _ _ _ H).
Qed.

Lemma sorted_reverse_length l s :
  sorted_reverse key l = Ok s -> List.length s = List.length l.
Proof.
  intros H. symmetry. apply Permutation_length, (sorted_reverse_perm _ _ H).
Qed.

Lemma sorted_reverse_Forall (P : A -> Prop) l s :
  Forall P l -> sorted_reverse key l = Ok s -> Forall P s.
Proof.
  intros HP H. exact (Permutation_Forall (sorted_reverse_perm _ _ H) HP).
Qed.

Lemma insert_desc_error x l e :
  insert_desc key x l = Raise e -> e = TypeError.
Proof.
  induction l as [ | y l IH]; simpl; intros H; try discriminate.
  destruct (py_lt (key x) (key y)) as [[ | ] | e'] eqn:Hlt; simpl in H.
  - destruct (insert_desc key x l); simpl in H; try discriminate.
    apply IH. exact H.
  - discriminate.
  - injection H as <-. exact (py_lt_error _ _ _ Hlt).
Qed.

Lemma sorted_reverse_error l e :
  sorted_reverse key l = Raise e -> e = TypeError.
Proof.
  induction l as [ | x l IH]; simpl; intros H; try discriminate.
  destruct (sorted_reverse key l) as [s | e']; simpl in H.
  - exact (insert_desc_error _ _ _ H).
  - injection H as <-. apply IH. reflexivity.
Qed.

(** A sort that returns has compared no [None] key: a list that holds one
    is a singleton. *)
Lemma sorted_reverse_ok_no_None l s x :
  sorted_reverse key l = Ok s -> In x l -> key x = PNone -> l = [x].
Proof.
  revert s. induction l as [ | y l IH]; simpl; intros s H Hin Hk.
  - contradiction.
  - bind_inv H s' Hs.
    destruct l as [ | z l'].
    + destruct Hin as [-> | []]. reflexivity.
    + exfalso. destruct Hin as [-> | Hin].
      * pose proof (sorted_reverse_length _ _ Hs) as Hlen.
        destruct s' as [ | z' s'']; simpl in Hlen; try discriminate.
        simpl in H. rewrite Hk in H. discriminate.
      * pose proof (IH s' eq_refl Hin Hk) as Heq.
        injection Heq as -> ->. simpl in Hs. injection Hs as <-.
        simpl in H. rewrite Hk, py_lt_None_r in H. discriminate.
Qed.

(** With two elements or more, one [None] key makes the sort raise. *)
Lemma sorted_reverse_None_raises l x :
  In x l -> key x = PNone -> (2 <= List.length l)%nat ->
  sorted_reverse key l = Raise TypeError.
Proof.
  intros Hin Hk Hlen.
  destruct (sorted_reverse key l) as [s | e] eqn:Hs.
  - rewrite (sorted_reverse_ok_no_None _ _ _ Hs Hin Hk) in Hlen.
    simpl in Hlen. lia.
  - f_equal. exact (sorted_reverse_error _ _ Hs).
Qed.

(** Keys that are all strings can be compared, and the sort returns. *)
Lemma insert_desc_total x l :
  str_key key x -> Forall (str_key key) l -> exists r, insert_desc key x l = Ok r.
Proof.
  intros [sx Hx]. induction 1 as [ | y l [sy Hy] _ [r IH]]; simpl.
  - eauto.
  - rewrite Hx, Hy. simpl. destruct (String.ltb sx sy); [ | eauto].
    rewrite IH. simpl. eauto.
Qed.

Lemma sorted_reverse_total l :
  Forall (str_key key) l -> exists s, sorted_reverse key l = Ok s.
Proof.
  induction 1 as [ | x l Hx Hl [s IH]]; simpl.
  - eauto.
  - rewrite IH. simpl. apply insert_desc_total; [exact Hx | ].
    exact (sorted_reverse_Forall _ _ _ Hl IH).
Qed.
End SortedFacts.

(** ** The order of a returned list *)

Lemma ltb_asym x y : String.ltb x y = true -> String.ltb y x = false.
Proof.
  unfold String.ltb. rewrite (String.compare_antisym x y).
  destruct (String.compare y x); simpl; congruence.
Qed.

Lemma ltb_false_leb x y : String.ltb x y = false -> String.leb y x = true.
Proof.
  unfold String.ltb, String.leb. rewrite (String.compare_antisym x y).
  destruct (String.compare y x); simpl; congruence.
Qed.

Lemma py_lt_asym a b :
  timestamp_ok a -> timestamp_ok b ->
  py_lt (sort_key a) (sort_key b) = Ok true -> not_below b a.
Proof.
  unfold not_below.
  intros [Ha | [x Ha]] [Hb | [y Hb]]; rewrite Ha, Hb; simpl;
    try discriminate.
  intros H. injection H as H. rewrite (ltb_asym _ _ H). reflexivity.
Qed.

Lemma insert_desc_HdRel x l r z :
  insert_desc sort_key x l = Ok r ->
  not_below z x -> HdRel not_below z l -> HdRel not_below z r.
Proof.
  destruct l as [ | y l]; simpl; intros H Hzx Hzl.
  - injection H as <-. constructor. exact Hzx.
  - bind_inv H smaller Hlt. destruct smaller.
    + bind_inv H r' Hr'. injection H as <-. constructor.
      inversion Hzl; assumption.
    + injection H as <-. constructor. exact Hzx.
Qed.

Lemma insert_desc_sorted x l r :
  timestamp_ok x -> Forall timestamp_ok l ->
  Sorted not_below l -> insert_desc sort_key x l = Ok r ->
  Sorted not_below r.
Proof.
  intros Hx. revert r.
  induction l as [ | y l IH]; simpl; intros r Hl Hs H.
  - injection H as <-. repeat constructor.
  - inversion Hl as [ | ? ? Hy Hl']; subst.
    inversion Hs as [ | ? ? Hs' Hhd]; subst.
    bind_inv H smaller Hlt. destruct smaller.
    + bind_inv H r' Hins. injection H as <-. constructor.
      * apply IH; auto.
      * eapply insert_desc_HdRel; eauto. apply py_lt_asym; auto.
    + injection H as <-. constructor; auto.
Qed.

Lemma sorted_reverse_sorted l s :
  Forall timestamp_ok l -> sorted_reverse sort_key l = Ok s ->
  Sorted not_below s.
Proof.
  revert s. induction l as [ | x l IH]; simpl; intros s Hl H.
  - injection H as <-. constructor.
  - inversion Hl as [ | ? ? Hx Hl']; subst. bind_inv H s' Hs'.
    apply (insert_desc_sorted x s' s).
    + exact Hx.
    + exact (sorted_reverse_Forall _ _ _ _ Hl' Hs').
    + apply IH; [exact Hl' | reflexivity].
    + exact H.
Qed.

Lemma Sorted_firstn {A} (R : A -> A -> Prop) n l :
  Sorted R l -> Sorted R (firstn n l).
Proof.
  revert l. induction n as [ | n IH]; intros l Hs; simpl.
  - constructor.
  - destruct Hs as [ | x l Hs Hhd]; constructor.
    + apply IH. exact Hs.
    + destruct n; simpl; [constructor | ].
      destruct Hhd; constructor. assumption.
Qed.

Lemma Forall_firstn {A} (P : A -> Prop) n l :
  Forall P l -> Forall P (firstn n l).
Proof.
  revert l. induction n; intros l H; simpl; [constructor | ].
  destruct H; constructor; auto.
Qed.

Lemma incl_firstn {A} n (l : list A) : incl (firstn n l) l.
Proof.
  revert l. induction n as [ | n IH]; intros l y; simpl.
  - contradiction.
  - destruct l as [ | x l]; [contradiction | ].
    intros [-> | Hy]; [left; reflexivity | right; exact (IH l y Hy)].
Qed.

Lemma Sorted_weaken {A} (R R' : A -> A -> Prop) (P : A -> Prop) l :
  (forall a b, P a -> P b -> R a b -> R' a b) ->
  Forall P l -> Sorted R l -> Sorted R' l.
Proof.
  intros HR. induction l as [ | x l IH]; intros HP Hs; constructor;
    inversion HP; inversion Hs; subst.
  - auto.
  - match goal with H : HdRel R x l |- _ => destruct H end; constructor.
    match goal with H : Forall P (_ :: _) |- _ => inversion H; subst end.
    auto.
Qed.

Lemma sort_key_stamp x s : sort_key x = PStr s -> stamp x = s.
Proof.
  unfold sort_key, dict_get, stamp, published_at.
  destruct (lookup "publishedAt" x) as [v | ].
  - intros ->. reflexivity.
  - intros H. injection H as <-. reflexivity.
Qed.

Lemma not_below_newer a b :
  timestamp_ok a -> timestamp_ok b -> not_below a b ->
  newer_or_equal a b = true.
Proof.
  unfold not_below.
  intros [Ha | [x Ha]] [Hb | [y Hb]]; rewrite Ha, Hb; simpl;
    try discriminate.
  intros H. injection H as H. apply ltb_false_leb in H.
  unfold newer_or_equal.
  rewrite (sort_key_stamp _ _ Ha), (sort_key_stamp _ _ Hb). exact H.
Qed.

(** What [newest_50] returns is taken from its input. *)
Lemma newest_50_incl news l : newest_50 news = Ok l -> incl l news.
Proof.
  unfold newest_50. generalize 50%nat. intros n H.
  bind_inv H s Hs. injection H as <-.
  intros a Ha. apply incl_firstn in Ha.
  exact (Permutation_in _ (Permutation_sym (sorted_reverse_perm _ _ _ Hs)) Ha).
Qed.

(** Whenever the sort of well-formed timestamps returns, the sliced result
    is in descending order of timestamp. *)
Lemma newest_50_sorted news l :
  Forall timestamp_ok news -> newest_50 news = Ok l ->
  Sorted (fun a b => newer_or_equal a b = true) l.
Proof.
  unfold newest_50. generalize 50%nat. intros n Hok H.
  bind_inv H s Hs. injection H as <-.
  apply (Sorted_weaken not_below _ timestamp_ok).
  - intros a b. apply not_below_newer.
  - apply Forall_firstn. exact (sorted_reverse_Forall _ _ _ _ Hok Hs).
  - apply Sorted_firstn. exact (sorted_reverse_sorted _ _ Hok Hs).
Qed.

(** With timestamps that are all strings the sort returns, and the result
    has the length of the input, capped at 50. *)
Lemma newest_50_total news :
  Forall (str_key sort_key) news ->
  exists l, newest_50 news = Ok l
            /\ List.length l = Nat.min 50 (List.length news).
Proof.
  intros Hstr. unfold newest_50. generalize 50%nat. intros n.
  destruct (sorted_reverse_total _ _ Hstr) as [s Hs]. rewrite Hs.
  cbn [rbind]. eexists. split; [reflexivity | ].
  rewrite length_firstn, (sorted_reverse_length _ _ _ Hs). reflexivity.
Qed.

(** ** The fallback fetcher *)

(** Building the article of a feed entry never raises. *)
Lemma rss_article_ok e pub :
  rss_article e pub
  = Ok [("title", entry_get e "title" PNone);
        ("url", entry_get e "link" PNone);
        ("source", rss_source e);
        ("publishedAt", rss_published_at pub);
        ("description", entry_get e "summary" PNone)].
Proof.
  unfold rss_article, rss_source, entry_get, dict_get.
  destruct (lookup "source" (fields e)) as [[ | b | z | s | l | d] | ];
    reflexivity.
Qed.

Lemma rss_loop_acc fd entries arts :
  rss_loop fd entries arts
  = let? r := rss_loop fd entries [] in Ok (arts ++ r)%list.
Proof.
  revert arts. induction entries as [ | e rest IH]; intros arts; simpl.
  - rewrite app_nil_r. reflexivity.
  - destruct (entry_pub e) as [pub | err]; simpl; [ | reflexivity].
    destruct (too_old pub fd); [apply IH | ].
    rewrite rss_article_ok. simpl.
    rewrite (IH (arts ++ _)%list), (IH [_]).
    destruct (rss_loop fd rest []) as [r | err]; simpl; [ | reflexivity].
    rewrite <- app_assoc. reflexivity.
Qed.

Lemma rss_loop_app fd l1 l2 arts :
  rss_loop fd (l1 ++ l2) arts
  = let? a := rss_loop fd l1 arts in rss_loop fd l2 a.
Proof.
  revert arts. induction l1 as [ | e rest IH]; intros arts; simpl.
  - reflexivity.
  - destruct (entry_pub e) as [pub | err]; simpl; [ | reflexivity].
    destruct (too_old pub fd); [apply IH | ].
    rewrite rss_article_ok. simpl. apply IH.
Qed.

(** The loop drops an entry that is too old and keeps any other. *)
Lemma rss_loop_cons fd e rest pub :
  entry_pub e = Ok pub ->
  rss_loop fd (e :: rest) []
  = if too_old pub fd then rss_loop fd rest []
    else let? r := rss_loop fd rest [] in Ok (rss_article_of e pub :: r).
Proof.
  intros Hpub. simpl. rewrite Hpub. simpl.
  destruct (too_old pub fd); [reflexivity | ].
  rewrite rss_article_ok. simpl. rewrite rss_loop_acc. reflexivity.
Qed.

(** On entries with valid or absent times the loop returns. *)
Lemma rss_loop_total fd entries :
  Forall entry_valid entries -> exists arts, rss_loop fd entries [] = Ok arts.
Proof.
  induction 1 as [ | e rest [pub Hpub] _ [arts IH]].
  - exists []. reflexivity.
  - rewrite (rss_loop_cons _ _ _ _ Hpub), IH.
    destruct (too_old pub fd); simpl; eauto.
Qed.

Lemma rss_article_of_timestamp_ok e pub : timestamp_ok (rss_article_of e pub).
Proof.
  destruct pub as [p | ]; [right; exists (isoformat p) | left]; reflexivity.
Qed.

Lemma rss_loop_timestamp_ok fd entries arts :
  rss_loop fd entries [] = Ok arts -> Forall timestamp_ok arts.
Proof.
  revert arts. induction entries as [ | e rest IH]; intros arts H.
  - injection H as <-. constructor.
  - destruct (entry_pub e) as [pub | err] eqn:Hpub.
    + rewrite (rss_loop_cons _ _ _ _ Hpub) in H.
      destruct (too_old pub fd); [auto | ].
      destruct (rss_loop fd rest []) as [r | err]; simpl in H;
        [ | discriminate].
      injection H as <-. constructor; auto.
      apply rss_article_of_timestamp_ok.
    + simpl in H. rewrite Hpub in H. discriminate.
Qed.

(** ** The primary fetcher *)

(** The article built from an object of the response whose [source] is
    missing or is itself an object. *)
Lemma newsapi_article_object d :
  (lookup "source" d = None \/ exists sd, lookup "source" d = Some (PDict sd)) ->
  newsapi_article (PDict d)
  = Ok [("title", dict_get d "title" PNone);
        ("source",
          match lookup "source" d with
          | Some (PDict sd) => dict_get sd "name" PNone
          | _ => PNone
          end);
        ("url", dict_get d "url" PNone);
        ("publishedAt", dict_get d "publishedAt" PNone);
        ("description", dict_get d "description" PNone)].
Proof.
  intros [H | [sd H]]; unfold newsapi_article, py_get, dict_get; simpl;
    rewrite H; reflexivity.
Qed.

(** A [source] that is present and not an object makes the construction
    raise: [None], a string or a number has no attribute [get]. *)
Lemma newsapi_article_source_not_object d v :
  lookup "source" d = Some v -> is_dict v = false ->
  newsapi_article (PDict d) = Raise AttributeError.
Proof.
  intros H Hv. unfold newsapi_article, py_get, dict_get; simpl.
  rewrite H. destruct v; try reflexivity. discriminate.
Qed.

Lemma newsapi_article_not_object a :
  is_dict a = false -> newsapi_article a = Raise AttributeError.
Proof. destruct a; try reflexivity. discriminate. Qed.

Lemma newsapi_loop_nil arts : newsapi_loop [] arts = Ok arts.
Proof. reflexivity. Qed.

(** One item that is not an object makes the whole loop raise. *)
Lemma newsapi_loop_not_object items arts a :
  In a items -> is_dict a = false ->
  exists e, newsapi_loop items arts = Raise e.
Proof.
  revert arts. induction items as [ | b items IH]; intros arts Hin Ha.
  - contradiction.
  - simpl. destruct (newsapi_article b) as [art | e] eqn:Hb; simpl;
      [ | eauto].
    destruct Hin as [-> | Hin].
    + rewrite (newsapi_article_not_object _ Ha) in Hb. discriminate.
    + apply IH; assumption.
Qed.

(** ** The claims about [get_news] *)

(** With a key that is not true the handler alone fetches. *)
Lemma run_get_news_falsy_key w days q fd :
  truthy (env_value (NEWSAPI_KEY w)) = false ->
  datetime_sub_days (utcnow w) days = Ok fd ->
  run (get_news w days q)
  = (let? news := rss_outcome w q fd in newest_50 news, [CallFallback q fd]).
Proof.
  intros Hkey Hfd. rewrite (run_get_news _ _ _ _ Hfd), run_primary_attempt.
  rewrite Hkey. reflexivity.
Qed.

(** Without a true key the primary fetcher is never called. *)
Lemma get_news_falsy_key_no_primary w days q :
  truthy (env_value (NEWSAPI_KEY w)) = false ->
  primary_calls (snd (run (get_news w days q))) = O.
Proof.
  intros Hkey.
  destruct (datetime_sub_days (utcnow w) days) as [fd | e] eqn:Hfd.
  - rewrite (run_get_news_falsy_key _ _ _ _ Hkey Hfd). reflexivity.
  - rewrite (run_get_news_overflow _ _ _ _ Hfd). reflexivity.
Qed.

(** X16. Whenever the [try] body of [get_news] raises, be it the primary
    fetcher's error or the error raised for a missing key, [get_news] calls
    the fallback fetcher exactly once and its outcome is that of the
    fallback passed through the sort and the slice; the error of the primary
    is dropped, and an empty list of the fallback is returned as the empty
    list.  When the body returns, the fallback is not called and the outcome
    is made of the primary's articles alone.  Either way every article of a
    returned list comes from the one source that was used. *)
Theorem get_news_falls_back_once w days q fd r t1 :
  datetime_sub_days (utcnow w) days = Ok fd ->
  run (primary_attempt w q fd) = (r, t1) ->
  let source :=
    match r with
    | Raise _ => rss_outcome w q fd
    | Ok _ => r
    end in
  run (get_news w days q)
  = (let? news := source in newest_50 news,
     match r with
     | Raise _ => (t1 ++ [CallFallback q fd])%list
     | Ok _ => t1
     end)
  /\ fallback_calls (snd (run (get_news w days q)))
     = match r with Raise _ => 1%nat | Ok _ => O end
  /\ (forall e, r = Raise e -> rss_outcome w q fd = Ok [] ->
        fst (run (get_news w days q)) = Ok [])
  /\ (forall l, fst (run (get_news w days q)) = Ok l ->
        exists news, source = Ok news /\ incl l news).
Proof.
  intros Hfd Hrun source.
  assert (Hget : run (get_news w days q)
                 = (let? news := source in newest_50 news,
                    match r with
                    | Raise _ => (t1 ++ [CallFallback q fd])%list
                    | Ok _ => t1
                    end)).
  { rewrite (run_get_news _ _ _ _ Hfd), Hrun. subst source.
    destruct r; reflexivity. }
  assert (Ht1 : t1 = [] \/ t1 = [CallPrimary q fd]).
  { pose proof (primary_attempt_trace w q fd) as H.
    rewrite Hrun in H. exact H. }
  split; [exact Hget | split; [ | split]].
  - rewrite Hget. destruct r as [news | e]; simpl;
      destruct Ht1 as [-> | ->]; reflexivity.
  - intros e -> Hempty. rewrite Hget. subst source. cbn. rewrite Hempty.
    reflexivity.
  - intros l Hl. rewrite Hget in Hl. cbn [fst] in Hl.
    bind_inv Hl news Hnews. exists news. split; [reflexivity | ].
    exact (newest_50_incl _ _ Hl).
Qed.

Lemma get_news_falls_back_once_witness :
  run (get_news world_timeout 7 DEFAULT_QUERY)
  = (Ok [rss_article_of entry_recent
           (Some (mk_datetime 2024 3 13 9 30 0 0))],
     [CallPrimary DEFAULT_QUERY sample_from;
      CallFallback DEFAULT_QUERY sample_from])
  /\ fallback_calls (snd (run (get_news world_timeout 7 DEFAULT_QUERY)))
     = 1%nat.
Proof.
  destruct (get_news_falls_back_once world_timeout 7 DEFAULT_QUERY
              sample_from (Raise (RequestException "timed out"))
              [CallPrimary DEFAULT_QUERY sample_from]
              eq_refl eq_refl) as [Hrun [Hcalls _]].
  split; [rewrite Hrun; reflexivity | exact Hcalls].
Defined.

(** C3. For every positive number of days and every query, a list that
    [get_news] returns has at most 50 articles, whatever the fetcher that
    was used produced. *)
Theorem get_news_at_most_50 w days q l t :
  0 < days ->
  run (get_news w days q) = (Ok l, t) ->
  (List.length l <= 50)%nat.
Proof.
  intros _ Hrun.
  destruct (datetime_sub_days (utcnow w) days) as [fd | e] eqn:Hfd.
  - rewrite (run_get_news _ _ _ _ Hfd) in Hrun.
    destruct (run (primary_attempt w q fd)) as [[news | e] t1];
      injection Hrun as Hl _.
    + exact (newest_50_length _ _ Hl).
    + bind_inv Hl news Hnews. exact (newest_50_length _ _ Hl).
  - rewrite (run_get_news_overflow _ _ _ _ Hfd) in Hrun. discriminate.
Qed.

Lemma get_news_at_most_50_witness :
  exists l t,
    run (get_news world_sixty 7 DEFAULT_QUERY) = (Ok l, t)
    /\ List.length l = 50%nat
    /\ (List.length l <= 50)%nat.
Proof.
  eexists. eexists. split; [vm_compute; reflexivity | ].
  split; [reflexivity | ].
  apply (get_news_at_most_50 world_sixty 7 DEFAULT_QUERY _
           [CallPrimary DEFAULT_QUERY sample_from]).
  - lia.
  - vm_compute. reflexivity.
Defined.

(** C6. When [NEWSAPI_KEY] is unset, [get_news] never calls the primary
    fetcher; it calls the fallback fetcher only, and its outcome is the
    fallback's, sorted and sliced: the missing key shows nowhere. *)
Theorem get_news_without_key w days q :
  NEWSAPI_KEY w = None ->
  primary_calls (snd (run (get_news w days q))) = O
  /\ (forall fd, datetime_sub_days (utcnow w) days = Ok fd ->
        run (get_news w days q)
        = (let? news := rss_outcome w q fd in newest_50 news,
           [CallFallback q fd])).
Proof.
  intros Hkey.
  assert (Hfalse : truthy (env_value (NEWSAPI_KEY w)) = false)
    by (rewrite Hkey; reflexivity).
  split.
  - exact (get_news_falsy_key_no_primary _ _ _ Hfalse).
  - intros fd Hfd. exact (run_get_news_falsy_key _ _ _ _ Hfalse Hfd).
Qed.

Lemma get_news_without_key_witness :
  primary_calls
    (snd (run (get_news (world_no_key [entry_stale; entry_recent]) 7
                 DEFAULT_QUERY))) = O
  /\ run (get_news (world_no_key [entry_stale; entry_recent]) 7 DEFAULT_QUERY)
     = (Ok [rss_article_of entry_recent
              (Some (mk_datetime 2024 3 13 9 30 0 0))],
        [CallFallback DEFAULT_QUERY sample_from]).
Proof.
  destruct (get_news_without_key (world_no_key [entry_stale; entry_recent]) 7
              DEFAULT_QUERY eq_refl) as [Hnone Hrun].
  split; [exact Hnone | ].
  rewrite (Hrun sample_from eq_refl). reflexivity.
Defined.

(** C10. A key that is set to the empty string counts as no key: [get_news]
    behaves exactly as with the variable unset, never calls the primary
    fetcher and uses the fallback fetcher. *)
Theorem get_news_empty_key w days q :
  NEWSAPI_KEY w = Some "" ->
  run (get_news w days q) = run (get_news (without_key w) days q)
  /\ primary_calls (snd (run (get_news w days q))) = O
  /\ (forall fd, datetime_sub_days (utcnow w) days = Ok fd ->
        snd (run (get_news w days q)) = [CallFallback q fd]).
Proof.
  intros Hkey.
  assert (Hfalse : truthy (env_value (NEWSAPI_KEY w)) = false)
    by (rewrite Hkey; reflexivity).
  split; [ | split].
  - destruct (datetime_sub_days (utcnow w) days) as [fd | e] eqn:Hfd.
    + rewrite (run_get_news_falsy_key _ _ _ _ Hfalse Hfd).
      rewrite (run_get_news_falsy_key (without_key w) days q fd eq_refl Hfd).
      reflexivity.
    + rewrite (run_get_news_overflow _ _ _ _ Hfd).
      rewrite (run_get_news_overflow (without_key w) days q e Hfd).
      reflexivity.
  - exact (get_news_falsy_key_no_primary _ _ _ Hfalse).
  - intros fd Hfd. rewrite (run_get_news_falsy_key _ _ _ _ Hfalse Hfd).
    reflexivity.
Qed.

Lemma get_news_empty_key_witness :
  run (get_news world_empty_key 7 DEFAULT_QUERY)
  = run (get_news (without_key world_empty_key) 7 DEFAULT_QUERY)
  /\ snd (run (get_news world_empty_key 7 DEFAULT_QUERY))
     = [CallFallback DEFAULT_QUERY sample_from].
Proof.
  destruct (get_news_empty_key world_empty_key 7 DEFAULT_QUERY eq_refl)
    as [Hsame [_ Htrace]].
  split; [exact Hsame | exact (Htrace sample_from eq_refl)].
Defined.

(** ** The claims about the fetchers *)

(** C4. Of the entries of the feed, [fetch_news_rss] leaves out one whose
    publish time is there and strictly earlier than [from_date]: the outcome
    is that of the feed without the entry.  It keeps one without a publish
    time: its article, with no timestamp, stands in the result between the
    articles of the entries before and after it. *)
Theorem fetch_news_rss_drops_old_keeps_undated w q fd before e after :
  feedparser_parse w q = Ok (before ++ e :: after)%list ->
  (forall p, entry_pub e = Ok (Some p) -> datetime_lt p fd = true ->
     fst (run (fetch_news_rss w q fd)) = rss_loop fd (before ++ after) [])
  /\ (entry_pub e = Ok None ->
      fst (run (fetch_news_rss w q fd))
      = (let? a := rss_loop fd before [] in
         let? b := rss_loop fd after [] in
         Ok (a ++ rss_article_of e None :: b)%list)
      /\ lookup "publishedAt" (rss_article_of e None) = Some PNone
      /\ forall arts, fst (run (fetch_news_rss w q fd)) = Ok arts ->
           In (rss_article_of e None) arts).
Proof.
  intros Hfeed.
  assert (Hrun : fst (run (fetch_news_rss w q fd))
                 = rss_loop fd (before ++ e :: after) []).
  { unfold run. rewrite run_fetch_news_rss. unfold rss_outcome.
    rewrite Hfeed. reflexivity. }
  assert (Hsplit : rss_loop fd (before ++ e :: after) []
                   = let? a := rss_loop fd before [] in
                     let? r := rss_loop fd (e :: after) [] in
                     Ok (a ++ r)%list).
  { rewrite rss_loop_app. destruct (rss_loop fd before []) as [a | err];
      cbn [rbind]; [apply rss_loop_acc | reflexivity]. }
  split.
  - intros p Hpub Hold. rewrite Hrun, Hsplit.
    rewrite (rss_loop_cons _ _ _ _ Hpub). cbn [too_old]. rewrite Hold.
    rewrite rss_loop_app.
    destruct (rss_loop fd before []) as [a | err]; cbn [rbind];
      [symmetry; apply rss_loop_acc | reflexivity].
  - intros Hpub.
    assert (Hkeep : fst (run (fetch_news_rss w q fd))
                    = (let? a := rss_loop fd before [] in
                       let? b := rss_loop fd after [] in
                       Ok (a ++ rss_article_of e None :: b)%list)).
    { rewrite Hrun, Hsplit. rewrite (rss_loop_cons _ _ _ _ Hpub).
      cbn [too_old].
      destruct (rss_loop fd before []) as [a | err]; cbn [rbind];
        [ | reflexivity].
      destruct (rss_loop fd after []) as [b | err]; reflexivity. }
    split; [exact Hkeep | split; [reflexivity | ]].
    intros arts Harts. rewrite Hkeep in Harts.
    destruct (rss_loop fd before []) as [a | err]; cbn [rbind] in Harts;
      [ | discriminate].
    destruct (rss_loop fd after []) as [b | err]; cbn [rbind] in Harts;
      [ | discriminate].
    injection Harts as <-. apply in_or_app. right. left. reflexivity.
Qed.

Lemma fetch_news_rss_drops_old_keeps_undated_witness :
  fst (run (fetch_news_rss
              (world_no_key [entry_recent; entry_stale; entry_undated])
              DEFAULT_QUERY sample_from))
  = rss_loop sample_from [entry_recent; entry_undated] []
  /\ In (rss_article_of entry_undated None)
       [rss_article_of entry_recent (Some (mk_datetime 2024 3 13 9 30 0 0));
        rss_article_of entry_undated None].
Proof.
  split.
  - exact (proj1 (fetch_news_rss_drops_old_keeps_undated
                    (world_no_key [entry_recent; entry_stale; entry_undated])
                    DEFAULT_QUERY sample_from
                    [entry_recent] entry_stale [entry_undated] eq_refl)
                 (mk_datetime 2024 3 5 9 30 0 0) eq_refl eq_refl).
  - exact (proj2 (proj2 (proj2 (fetch_news_rss_drops_old_keeps_undated
                    (world_no_key [entry_recent; entry_stale; entry_undated])
                    DEFAULT_QUERY sample_from
                    [entry_recent; entry_stale] entry_undated [] eq_refl)
                    eq_refl)) _ eq_refl).
Defined.

(** X17. For a record of the API whose [source] is missing or is an object,
    the article is built, and a missing field, a missing [source] or a
    source object without a name gives [None] in the article.  For a feed
    entry the article is always built, with [None] for each missing field,
    for a missing source, for a source object without a title and for a
    missing publish time. *)
Theorem article_construction_tolerates_missing_fields :
  (forall d,
     (lookup "source" d = None \/ exists sd, lookup "source" d = Some (PDict sd)) ->
     exists art,
       newsapi_article (PDict d) = Ok art
       /\ (lookup "title" d = None -> lookup "title" art = Some PNone)
       /\ (lookup "url" d = None -> lookup "url" art = Some PNone)
       /\ (lookup "publishedAt" d = None ->
           lookup "publishedAt" art = Some PNone)
       /\ (lookup "description" d = None ->
           lookup "description" art = Some PNone)
       /\ (lookup "source" d = None -> lookup "source" art = Some PNone)
       /\ (forall sd, lookup "source" d = Some (PDict sd) ->
             lookup "name" sd = None -> lookup "source" art = Some PNone))
  /\ (forall e pub,
        exists art,
          rss_article e pub = Ok art
          /\ (lookup "title" (fields e) = None ->
              lookup "title" art = Some PNone)
          /\ (lookup "link" (fields e) = None -> lookup "url" art = Some PNone)
          /\ (lookup "summary" (fields e) = None ->
              lookup "description" art = Some PNone)
          /\ (lookup "source" (fields e) = None ->
              lookup "source" art = Some PNone)
          /\ (forall sd, lookup "source" (fields e) = Some (PDict sd) ->
                lookup "title" sd = None -> lookup "source" art = Some PNone)
          /\ (pub = None -> lookup "publishedAt" art = Some PNone)).
Proof.
  split.
  - intros d Hsrc. eexists. split; [exact (newsapi_article_object d Hsrc) | ].
    simpl. unfold dict_get.
    repeat split; try (intros ->; reflexivity).
    intros sd Hsd Hname. rewrite Hsd. cbn. rewrite Hname. reflexivity.
  - intros e pub. eexists. split; [apply rss_article_ok | ].
    simpl. unfold entry_get, dict_get, rss_source.
    repeat split; try (intros ->; reflexivity).
    intros sd Hsd Hname. rewrite Hsd. unfold dict_get. rewrite Hname.
    reflexivity.
Qed.

Lemma article_construction_tolerates_missing_fields_witness :
  (exists art,
     newsapi_article (PDict [("title", PStr "Bank Nifty futures slide");
                             ("source", PDict [("id", PNone)])]) = Ok art
     /\ lookup "source" art = Some PNone
     /\ lookup "publishedAt" art = Some PNone)
  /\ (exists art,
        rss_article entry_undated None = Ok art
        /\ lookup "source" art = Some PNone
        /\ lookup "publishedAt" art = Some PNone).
Proof.
  split.
  - destruct (proj1 article_construction_tolerates_missing_fields
                [("title", PStr "Bank Nifty futures slide");
                 ("source", PDict [("id", PNone)])]
                (or_intror (ex_intro _ [("id", PNone)] eq_refl)))
      as [art [Hart [_ [_ [Hpub [_ [_ Hname]]]]]]].
    exists art. split; [exact Hart | split].
    + exact (Hname [("id", PNone)] eq_refl eq_refl).
    + exact (Hpub eq_refl).
  - destruct (proj2 article_construction_tolerates_missing_fields
                entry_undated None)
      as [art [Hart [_ [_ [_ [Hsrc [_ Hpub]]]]]]].
    exists art. split; [exact Hart | split].
    + exact (Hsrc eq_refl).
    + exact (Hpub eq_refl).
Defined.

(** C8, at a failing input: a record of the API whose [source] is [null].
    The key is there, so the default of [a.get] is not used, and [None] has
    no [get]: building the article raises [AttributeError].  The whole
    fetch raises with it, the well-formed article of the same response is
    lost and [get_news] shows the feed instead.  The fallback path tests
    the source with [isinstance] and gives [None] for an entry of the same
    shape. *)
Theorem newsapi_article_null_source_raises :
  newsapi_article record_null_source = Raise AttributeError
  /\ newsapi_article record_with_source
     = Ok (newsapi_article_of record_with_source)
  /\ run (fetch_news_newsapi world_null_source DEFAULT_QUERY sample_from)
     = (Raise AttributeError, [CallPrimary DEFAULT_QUERY sample_from])
  /\ run (get_news world_null_source 7 DEFAULT_QUERY)
     = (Ok [rss_article_of entry_recent
              (Some (mk_datetime 2024 3 13 9 30 0 0))],
        [CallPrimary DEFAULT_QUERY sample_from;
         CallFallback DEFAULT_QUERY sample_from])
  /\ rss_article entry_null_source (Some (mk_datetime 2024 3 14 10 0 0 0))
     = Ok [("title", PStr "Sensex futures edge higher");
           ("url", PStr "https://news.example/sensex");
           ("source", PNone);
           ("publishedAt", PStr "2024-03-14T10:00:00");
           ("description", PNone)].
Proof. repeat split. Qed.

(** ** The claim about the query *)

Lemma lstrip_chars_spaces l :
  Forall (fun ch => is_space ch = true) l -> lstrip_chars l = [].
Proof.
  induction 1 as [ | ch l Hch _ IH]; simpl; [reflexivity | ].
  rewrite Hch. exact IH.
Qed.

(** A string of whitespace strips to the empty string. *)
Lemma str_strip_spaces s :
  Forall (fun ch => is_space ch = true) (utf8_chars s) -> str_strip s = "".
Proof.
  intros H. unfold str_strip. rewrite (lstrip_chars_spaces _ H). reflexivity.
Qed.

Lemma truthy_str s : truthy (PStr s) = true <-> s <> "".
Proof.
  simpl. destruct (String.eqb_spec s ""); simpl; split; congruence.
Qed.

(** C9. The query handed to the fetchers extends the default query and never
    replaces it: with a filter that is not empty once stripped, it is the
    default query followed by [" OR ("], the stripped filter and [")"]; with
    an empty filter or one of whitespace only, it is the default query. *)
Theorem full_query_extends_default query :
  (str_strip query <> "" ->
   full_query query = DEFAULT_QUERY ++ " OR (" ++ str_strip query ++ ")")
  /\ (str_strip query = "" -> full_query query = DEFAULT_QUERY)
  /\ (Forall (fun ch => is_space ch = true) (utf8_chars query) ->
      full_query query = DEFAULT_QUERY)
  /\ exists rest, full_query query = DEFAULT_QUERY ++ rest.
Proof.
  assert (Hempty : str_strip query = "" -> full_query query = DEFAULT_QUERY).
  { intros H. unfold full_query. rewrite H. reflexivity. }
  assert (Hfull : str_strip query <> "" ->
                  full_query query
                  = DEFAULT_QUERY ++ " OR (" ++ str_strip query ++ ")").
  { intros H. unfold full_query.
    rewrite (proj2 (truthy_str (str_strip query)) H). reflexivity. }
  split; [exact Hfull | split; [exact Hempty | split]].
  - intros H. apply Hempty, str_strip_spaces, H.
  - destruct (String.eqb_spec (str_strip query) "") as [H | H].
    + exists "". rewrite (Hempty H).
      clear. induction DEFAULT_QUERY as [ | c s IH]; simpl;
        [reflexivity | f_equal; exact IH].
    + exists (" OR (" ++ str_strip query ++ ")"). exact (Hfull H).
Qed.

Lemma full_query_extends_default_witness :
  full_query "  nifty bank " = DEFAULT_QUERY ++ " OR (nifty bank)"
  /\ full_query "   " = DEFAULT_QUERY
  /\ full_query "" = DEFAULT_QUERY.
Proof.
  split; [ | split].
  - rewrite (proj1 (full_query_extends_default "  nifty bank "));
      [reflexivity | discriminate].
  - apply (proj1 (proj2 (full_query_extends_default "   "))). reflexivity.
  - apply (proj1 (proj2 (proj2 (full_query_extends_default "")))).
    constructor.
Defined.

(** ** The claim about the failures of the primary fetcher *)

(** C7, as amended. [fetch_news_newsapi] calls no fallback itself.  It
    raises what the request raises and what the decoding of the body raises;
    it raises when the decoded value is not an object, when the value under
    [articles] cannot be iterated and when an item of it is not an object.
    A decoded object without the key [articles] is no failure: the fetcher
    returns the empty list.  Every error the fetcher raises reaches
    [get_news], which then calls the fallback fetcher; whenever the fetcher
    returns, [get_news] sorts and slices its list and the fallback is not
    attempted, so that a body without [articles] makes [get_news] return
    the empty list after the one call of the primary. *)
Theorem fetch_news_newsapi_failures w q fd :
  snd (run (fetch_news_newsapi w q fd)) = [CallPrimary q fd]
  /\ (forall e,
        requests_get w q (isoformat fd) (NEWSAPI_KEY w) = Raise e ->
        fst (run (fetch_news_newsapi w q fd)) = Raise e)
  /\ (forall r,
        requests_get w q (isoformat fd) (NEWSAPI_KEY w) = Ok r ->
        (forall e, json r = Raise e ->
           fst (run (fetch_news_newsapi w q fd)) = Raise e)
        /\ (forall data, json r = Ok data -> is_dict data = false ->
              fst (run (fetch_news_newsapi w q fd)) = Raise AttributeError)
        /\ (forall d, json r = Ok (PDict d) -> lookup "articles" d = None ->
              fst (run (fetch_news_newsapi w q fd)) = Ok [])
        /\ (forall d v e, json r = Ok (PDict d) ->
              lookup "articles" d = Some v -> py_iter v = Raise e ->
              fst (run (fetch_news_newsapi w q fd)) = Raise e)
        /\ (forall d v items a, json r = Ok (PDict d) ->
              lookup "articles" d = Some v -> py_iter v = Ok items ->
              In a items -> is_dict a = false ->
              exists e, fst (run (fetch_news_newsapi w q fd)) = Raise e))
  /\ (forall days e,
        truthy (env_value (NEWSAPI_KEY w)) = true ->
        datetime_sub_days (utcnow w) days = Ok fd ->
        fst (run (fetch_news_newsapi w q fd)) = Raise e ->
        run (get_news w days q)
        = (let? news := rss_outcome w q fd in newest_50 news,
           [CallPrimary q fd; CallFallback q fd]))
  /\ (forall days news,
        truthy (env_value (NEWSAPI_KEY w)) = true ->
        datetime_sub_days (utcnow w) days = Ok fd ->
        fst (run (fetch_news_newsapi w q fd)) = Ok news ->
        run (get_news w days q) = (newest_50 news, [CallPrimary q fd])
        /\ fallback_calls (snd (run (get_news w days q))) = O)
  /\ (forall days r d,
        truthy (env_value (NEWSAPI_KEY w)) = true ->
        datetime_sub_days (utcnow w) days = Ok fd ->
        requests_get w q (isoformat fd) (NEWSAPI_KEY w) = Ok r ->
        json r = Ok (PDict d) -> lookup "articles" d = None ->
        run (get_news w days q) = (Ok [], [CallPrimary q fd])).
Proof.
  assert (Hreturns : forall days news,
            truthy (env_value (NEWSAPI_KEY w)) = true ->
            datetime_sub_days (utcnow w) days = Ok fd ->
            newsapi_outcome w q fd = Ok news ->
            run (get_news w days q) = (newest_50 news, [CallPrimary q fd])).
  { intros days news Hkey Hfd Hnews.
    rewrite (run_get_news _ _ _ _ Hfd), run_primary_attempt, Hkey, Hnews.
    reflexivity. }
  assert (Hfetch : run (fetch_news_newsapi w q fd)
                   = (newsapi_outcome w q fd, [CallPrimary q fd])).
  { unfold run. apply run_fetch_news_newsapi. }
  rewrite Hfetch. cbn [fst snd].
  split; [reflexivity | split; [ | split; [ | split; [ | split]]]].
  - intros e H. unfold newsapi_outcome. rewrite H. reflexivity.
  - intros r Hr. unfold newsapi_outcome, newsapi_articles. rewrite Hr.
    cbn [rbind]. repeat split.
    + intros e ->. reflexivity.
    + intros data -> Hd. destruct data; try reflexivity. discriminate.
    + intros d -> Hd. cbn [rbind py_get]. unfold dict_get. rewrite Hd.
      reflexivity.
    + intros d v e -> Hd Hv. cbn [rbind py_get]. unfold dict_get. rewrite Hd.
      rewrite Hv. reflexivity.
    + intros d v items a -> Hd Hv Hin Ha. cbn [rbind py_get].
      unfold dict_get. rewrite Hd, Hv. cbn [rbind].
      exact (newsapi_loop_not_object items [] a Hin Ha).
  - intros days e Hkey Hfd Hraise.
    rewrite (run_get_news _ _ _ _ Hfd), run_primary_attempt, Hkey, Hraise.
    reflexivity.
  - intros days news Hkey Hfd Hnews.
    rewrite (Hreturns _ _ Hkey Hfd Hnews). split; reflexivity.
  - intros days r d Hkey Hfd Hr Hdata Hd.
    change (@Ok (list article) []) with (newest_50 []).
    apply (Hreturns _ _ Hkey Hfd).
    unfold newsapi_outcome, newsapi_articles. rewrite Hr. cbn [rbind].
    rewrite Hdata. cbn [rbind py_get]. unfold dict_get. rewrite Hd.
    reflexivity.
Qed.

Lemma fetch_news_newsapi_failures_witness :
  fst (run (fetch_news_newsapi world_timeout DEFAULT_QUERY sample_from))
  = Raise (RequestException "timed out")
  /\ run (get_news world_timeout 7 DEFAULT_QUERY)
     = (Ok [rss_article_of entry_recent
              (Some (mk_datetime 2024 3 13 9 30 0 0))],
        [CallPrimary DEFAULT_QUERY sample_from;
         CallFallback DEFAULT_QUERY sample_from])
  /\ fst (run (fetch_news_newsapi world_rejected_key DEFAULT_QUERY
                 sample_from)) = Ok []
  /\ run (get_news world_rejected_key 7 DEFAULT_QUERY)
     = (Ok [], [CallPrimary DEFAULT_QUERY sample_from])
  /\ fallback_calls (snd (run (get_news world_rejected_key 7 DEFAULT_QUERY)))
     = O.
Proof.
  destruct (fetch_news_newsapi_failures world_timeout DEFAULT_QUERY
              sample_from) as [_ [Hreq [_ [Hget _]]]].
  destruct (fetch_news_newsapi_failures world_rejected_key DEFAULT_QUERY
              sample_from) as [_ [_ [Hbody [_ [Hok Hnone]]]]].
  split; [exact (Hreq _ eq_refl) | split; [ | split; [ | split]]].
  - rewrite (Hget 7 _ eq_refl eq_refl (Hreq _ eq_refl)). reflexivity.
  - exact (proj1 (proj2 (proj2 (Hbody _ eq_refl))) error_body eq_refl eq_refl).
  - exact (Hnone 7 _ error_body eq_refl eq_refl eq_refl eq_refl eq_refl).
  - exact (proj2 (Hok 7 [] eq_refl eq_refl eq_refl)).
Defined.

(** C7, as stated, fails on a body without the expected [articles]: the API
    answers a rejected key with a JSON object holding [status], [code] and
    [message].  The fetcher returns the empty list, no error reaches
    [get_news], and the fallback fetcher is not called although the feed has
    an entry. *)
Lemma fetch_news_newsapi_error_body_no_failure :
  requests_get world_rejected_key DEFAULT_QUERY (isoformat sample_from)
    (NEWSAPI_KEY world_rejected_key)
  = Ok (mk_response (Ok (PDict error_body)))
  /\ lookup "articles" error_body = None
  /\ run (fetch_news_newsapi world_rejected_key DEFAULT_QUERY sample_from)
     = (Ok [], [CallPrimary DEFAULT_QUERY sample_from])
  /\ run (get_news world_rejected_key 7 DEFAULT_QUERY)
     = (Ok [], [CallPrimary DEFAULT_QUERY sample_from])
  /\ fallback_calls (snd (run (get_news world_rejected_key 7 DEFAULT_QUERY)))
     = O.
Proof. repeat split. Qed.

(** ** Articles without a timestamp *)

(** The articles of both fetchers always hold the key [publishedAt], so the
    default of the sort key is never used: an absent timestamp gives the key
    [None], not the empty string. *)
Lemma sort_key_rss_undated e : sort_key (rss_article_of e None) = PNone.
Proof. reflexivity. Qed.

Lemma sort_key_newsapi_undated d art :
  newsapi_article (PDict d) = Ok art -> lookup "publishedAt" d = None ->
  sort_key art = PNone.
Proof.
  unfold newsapi_article, py_get. cbn [rbind].
  destruct (dict_get d "source" (PDict [])); cbn [rbind]; try discriminate.
  intros H Hd. injection H as <-. unfold sort_key, dict_get. simpl.
  rewrite Hd. reflexivity.
Qed.

(** Two articles or more, one of them without a timestamp: the sort
    raises. *)
Lemma newest_50_undated_raises news x :
  In x news -> sort_key x = PNone -> (2 <= List.length news)%nat ->
  newest_50 news = Raise TypeError.
Proof.
  intros Hin Hk Hlen. unfold newest_50.
  rewrite (sorted_reverse_None_raises sort_key news x Hin Hk Hlen).
  reflexivity.
Qed.

(** C1, at a failing input: no key, and a feed of an entry published two
    days ago and an entry without a publish time.  The fallback fetcher
    returns both articles, and [get_news] raises [TypeError] where the
    article without a timestamp was to sort last. *)
Theorem get_news_undated_article_raises :
  rss_outcome (world_no_key [entry_recent; entry_undated]) DEFAULT_QUERY
    sample_from
  = Ok [rss_article_of entry_recent (Some (mk_datetime 2024 3 13 9 30 0 0));
        rss_article_of entry_undated None]
  /\ run (get_news (world_no_key [entry_recent; entry_undated]) 7
            DEFAULT_QUERY)
     = (Raise TypeError, [CallFallback DEFAULT_QUERY sample_from]).
Proof. split; reflexivity. Qed.

(** C5, at its own input: seven days, no key, a feed of three entries
    published two days ago, ten days ago and without a publish time.  The
    fallback fetcher returns the two expected articles in the expected
    order, and [get_news] raises [TypeError] instead of returning them. *)
Theorem get_news_week_scenario_raises :
  datetime_sub_days sample_now 7 = Ok sample_from
  /\ rss_outcome (world_no_key [entry_recent; entry_stale; entry_undated])
       DEFAULT_QUERY sample_from
     = Ok [rss_article_of entry_recent
             (Some (mk_datetime 2024 3 13 9 30 0 0));
           rss_article_of entry_undated None]
  /\ run (get_news (world_no_key [entry_recent; entry_stale; entry_undated])
            7 DEFAULT_QUERY)
     = (Raise TypeError, [CallFallback DEFAULT_QUERY sample_from]).
Proof. repeat split. Qed.

(** C2, at a failing input: the key is set, the request to the API times
    out, and the feed holds an entry published two days ago and an entry
    without a publish time.  The primary fetcher raises, [get_news] calls
    the fallback fetcher once and the fallback returns both articles; but
    [get_news] does not return them: the sort raises [TypeError], which
    [get_news] propagates. *)
Theorem get_news_fallback_result_not_returned :
  run (primary_attempt world_timeout_undated DEFAULT_QUERY sample_from)
  = (Raise (RequestException "timed out"),
     [CallPrimary DEFAULT_QUERY sample_from])
  /\ rss_outcome world_timeout_undated DEFAULT_QUERY sample_from
     = Ok [rss_article_of entry_recent
             (Some (mk_datetime 2024 3 13 9 30 0 0));
           rss_article_of entry_undated None]
  /\ run (get_news world_timeout_undated 7 DEFAULT_QUERY)
     = (Raise TypeError,
        [CallPrimary DEFAULT_QUERY sample_from;
         CallFallback DEFAULT_QUERY sample_from])
  /\ fallback_calls
       (snd (run (get_news world_timeout_undated 7 DEFAULT_QUERY))) = 1%nat.
Proof. repeat split. Qed.

(** ** The order of what [get_news] returns *)

(** X1. Whenever [get_news] returns and the timestamps of the primary's
    articles are strings or [None], the returned list is in descending
    order of timestamp. *)
Theorem get_news_result_sorted w days q l t :
  (forall fd news, newsapi_outcome w q fd = Ok news ->
     Forall timestamp_ok news) ->
  run (get_news w days q) = (Ok l, t) ->
  Sorted (fun a b => newer_or_equal a b = true) l.
Proof.
  intros Hprimary Hrun.
  destruct (datetime_sub_days (utcnow w) days) as [fd | e] eqn:Hfd;
    [ | rewrite (run_get_news_overflow _ _ _ _ Hfd) in Hrun; discriminate].
  assert (Hrss : forall news, rss_outcome w q fd = Ok news ->
                              Forall timestamp_ok news).
  { unfold rss_outcome. intros news H. bind_inv H entries Hentries.
    exact (rss_loop_timestamp_ok _ _ _ H). }
  rewrite (run_get_news _ _ _ _ Hfd), run_primary_attempt in Hrun.
  destruct (truthy (env_value (NEWSAPI_KEY w)));
    [destruct (newsapi_outcome w q fd) as [news | e] eqn:Hnews | ];
    injection Hrun as Hl _.
  - exact (newest_50_sorted _ _ (Hprimary _ _ Hnews) Hl).
  - bind_inv Hl news Hnews'. exact (newest_50_sorted _ _ (Hrss _ eq_refl) Hl).
  - bind_inv Hl news Hnews. exact (newest_50_sorted _ _ (Hrss _ eq_refl) Hl).
Qed.

Lemma get_news_result_sorted_witness :
  exists l t,
    run (get_news world_sixty 7 DEFAULT_QUERY) = (Ok l, t)
    /\ Sorted (fun a b => newer_or_equal a b = true) l.
Proof.
  eexists. eexists. split; [vm_compute; reflexivity | ].
  apply (get_news_result_sorted world_sixty 7 DEFAULT_QUERY _
           [CallPrimary DEFAULT_QUERY sample_from]).
  - intros fd news H. vm_compute in H. injection H as <-.
    repeat (constructor; [right; eexists; reflexivity | ]). constructor.
  - vm_compute. reflexivity.
Defined.

(** X2. Whenever the fallback fetcher is the source and returns two articles or
    more, one of them without a timestamp, [get_news] raises [TypeError]. *)
Theorem get_news_undated_raises w days q fd news x :
  truthy (env_value (NEWSAPI_KEY w)) = false ->
  datetime_sub_days (utcnow w) days = Ok fd ->
  rss_outcome w q fd = Ok news ->
  In x news -> sort_key x = PNone -> (2 <= List.length news)%nat ->
  run (get_news w days q) = (Raise TypeError, [CallFallback q fd]).
Proof.
  intros Hkey Hfd Hrss Hin Hk Hlen.
  rewrite (run_get_news_falsy_key _ _ _ _ Hkey Hfd), Hrss. cbn [rbind].
  rewrite (newest_50_undated_raises _ _ Hin Hk Hlen). reflexivity.
Qed.

Lemma get_news_undated_raises_witness :
  run (get_news (world_no_key [entry_undated; entry_recent; entry_undated]) 7
         DEFAULT_QUERY)
  = (Raise TypeError, [CallFallback DEFAULT_QUERY sample_from]).
Proof.
  apply (get_news_undated_raises
           (world_no_key [entry_undated; entry_recent; entry_undated]) 7
           DEFAULT_QUERY sample_from
           [rss_article_of entry_undated None;
            rss_article_of entry_recent
              (Some (mk_datetime 2024 3 13 9 30 0 0));
            rss_article_of entry_undated None]
           (rss_article_of entry_undated None)).
  - reflexivity.
  - reflexivity.
  - reflexivity.
  - left. reflexivity.
  - reflexivity.
  - simpl. lia.
Defined.

(** X3. Whenever the fetcher that is used returns articles whose timestamps are
    all strings, [get_news] returns, and it returns as many articles as the
    fetcher, capped at 50; from no article it returns the empty list. *)
Theorem get_news_returns w days q fd r t1 news :
  datetime_sub_days (utcnow w) days = Ok fd ->
  run (primary_attempt w q fd) = (r, t1) ->
  match r with
  | Raise _ => rss_outcome w q fd
  | Ok _ => r
  end = Ok news ->
  Forall (str_key sort_key) news ->
  exists l,
    fst (run (get_news w days q)) = Ok l
    /\ List.length l = Nat.min 50 (List.length news)
    /\ (news = [] -> l = []).
Proof.
  intros Hfd Hrun Hsource Hstr.
  destruct (newest_50_total news Hstr) as [l [Hl Hlen]].
  exists l. split; [ | split; [exact Hlen | ]].
  - rewrite (run_get_news _ _ _ _ Hfd), Hrun.
    destruct r as [news' | e].
    + injection Hsource as ->. exact Hl.
    + cbn [fst]. rewrite Hsource. exact Hl.
  - intros ->. rewrite newest_50_nil in Hl. injection Hl as <-. reflexivity.
Qed.

Lemma get_news_returns_witness :
  exists l,
    fst (run (get_news world_sixty 7 DEFAULT_QUERY)) = Ok l
    /\ List.length l = 50%nat.
Proof.
  destruct (get_news_returns world_sixty 7 DEFAULT_QUERY sample_from
              (newsapi_outcome world_sixty DEFAULT_QUERY sample_from)
              [CallPrimary DEFAULT_QUERY sample_from]
              (map (fun a => match newsapi_article a with
                             | Ok art => art
                             | Raise _ => []
                             end) sixty_records)
              eq_refl eq_refl eq_refl) as [l [Hl [Hlen _]]].
  - repeat (constructor; [eexists; reflexivity | ]). constructor.
  - exists l. split; [exact Hl | exact Hlen].
Defined.

(** * Further properties of the fetchers *)

(** ** The fallback fetcher as a filter *)

Lemma datetime_new_error y m d hh mm ss e :
  datetime_new y m d hh mm ss = Raise e -> e = ValueError.
Proof.
  unfold datetime_new.
  match goal with |- context [if ?c then _ else _] => destruct c end;
    congruence.
Qed.

Lemma entry_pub_error e err : entry_pub e = Raise err -> err = ValueError.
Proof.
  unfold entry_pub. destruct (published_parsed e) as [t | ];
    [ | discriminate].
  destruct (datetime_new _ _ _ _ _ _) as [p | e'] eqn:Hnew; cbn [rbind];
    [discriminate | ].
  intros H. injection H as <-. exact (datetime_new_error _ _ _ _ _ _ _ Hnew).
Qed.

Lemma pub_of_valid e pub : entry_pub e = Ok pub -> pub_of e = pub.
Proof. unfold pub_of. intros ->. reflexivity. Qed.

(** On entries whose times are valid or absent the loop is a filter
    followed by a map. *)
Lemma rss_loop_filter_map fd entries :
  Forall entry_valid entries ->
  rss_loop fd entries []
  = Ok (map (fun e => rss_article_of e (pub_of e)) (filter (kept fd) entries)).
Proof.
  induction 1 as [ | e rest [pub Hpub] _ IH]; [reflexivity | ].
  rewrite (rss_loop_cons _ _ _ _ Hpub), IH.
  change (filter (kept fd) (e :: rest))
    with (if kept fd e then e :: filter (kept fd) rest
          else filter (kept fd) rest).
  replace (kept fd e) with (negb (too_old pub fd))
    by (unfold kept; rewrite (pub_of_valid _ _ Hpub); reflexivity).
  destruct (too_old pub fd); cbn [negb rbind map];
    [ | rewrite (pub_of_valid _ _ Hpub)]; reflexivity.
Qed.

(** The loop raises at the first entry whose time fields form no date. *)
Lemma rss_loop_invalid fd before e after err :
  Forall entry_valid before -> entry_pub e = Raise err ->
  rss_loop fd (before ++ e :: after) [] = Raise err.
Proof.
  intros Hbefore Herr. rewrite rss_loop_app.
  rewrite (rss_loop_filter_map _ _ Hbefore). cbn [rbind rss_loop].
  rewrite Herr. reflexivity.
Qed.

(** A loop that returns has met valid entries only. *)
Lemma rss_loop_ok_valid fd entries arts :
  rss_loop fd entries [] = Ok arts -> Forall entry_valid entries.
Proof.
  revert arts. induction entries as [ | e rest IH]; intros arts H;
    [constructor | ].
  destruct (entry_pub e) as [pub | err] eqn:Hpub.
  - constructor; [exists pub; exact Hpub | ].
    rewrite (rss_loop_cons _ _ _ _ Hpub) in H.
    destruct (too_old pub fd); [exact (IH _ H) | ].
    bind_inv H r Hr. exact (IH _ eq_refl).
  - cbn [rss_loop] in H. rewrite Hpub in H. discriminate.
Qed.

(** X4. [fetch_news_rss] returns, in the order of the feed, the article of
    every entry whose publish time is absent or not earlier than
    [from_date], and nothing else; so it returns no more articles than the
    feed has entries.  It returns only when the time fields of every entry
    form a date; the first entry where they do not makes the call raise
    [ValueError]. *)
Theorem fetch_news_rss_filter_map w q fd entries :
  feedparser_parse w q = Ok entries ->
  (Forall entry_valid entries ->
   fst (run (fetch_news_rss w q fd))
   = Ok (map (fun e => rss_article_of e (pub_of e))
           (filter (kept fd) entries)))
  /\ (forall arts, fst (run (fetch_news_rss w q fd)) = Ok arts ->
        Forall entry_valid entries
        /\ (List.length arts <= List.length entries)%nat)
  /\ (forall before e after err,
        entries = (before ++ e :: after)%list ->
        Forall entry_valid before -> entry_pub e = Raise err ->
        fst (run (fetch_news_rss w q fd)) = Raise ValueError).
Proof.
  intros Hfeed.
  assert (Hrun : fst (run (fetch_news_rss w q fd)) = rss_loop fd entries []).
  { unfold run. rewrite run_fetch_news_rss. unfold rss_outcome.
    rewrite Hfeed. reflexivity. }
  rewrite Hrun. split; [ | split].
  - apply rss_loop_filter_map.
  - intros arts Harts.
    pose proof (rss_loop_ok_valid _ _ _ Harts) as Hvalid.
    split; [exact Hvalid | ].
    rewrite (rss_loop_filter_map _ _ Hvalid) in Harts.
    injection Harts as <-. rewrite length_map. apply filter_length_le.
  - intros before e after err -> Hbefore Herr.
    rewrite (rss_loop_invalid _ _ _ _ _ Hbefore Herr).
    rewrite (entry_pub_error _ _ Herr). reflexivity.
Qed.

(** A feed entry whose seconds are 60, as a leap second is written. *)
Lemma fetch_news_rss_filter_map_witness :
  fst (run (fetch_news_rss
              (world_no_key [entry_recent; entry_stale; entry_undated])
              DEFAULT_QUERY sample_from))
  = Ok [rss_article_of entry_recent (Some (mk_datetime 2024 3 13 9 30 0 0));
        rss_article_of entry_undated None]
  /\ fst (run (fetch_news_rss
                 (world_no_key
                    [entry_recent;
                     mk_entry (Some (mk_struct_time 2024 3 13 23 59 60)) []])
                 DEFAULT_QUERY sample_from))
     = Raise ValueError.
Proof.
  split.
  - rewrite (proj1 (fetch_news_rss_filter_map
                      (world_no_key [entry_recent; entry_stale; entry_undated])
                      DEFAULT_QUERY sample_from _ eq_refl));
      [reflexivity | ].
    repeat (constructor; [eexists; reflexivity | ]). constructor.
  - apply (proj2 (proj2 (fetch_news_rss_filter_map
                           (world_no_key
                              [entry_recent;
                               mk_entry
                                 (Some (mk_struct_time 2024 3 13 23 59 60))
                                 []])
                           DEFAULT_QUERY sample_from _ eq_refl))
             [entry_recent]
             (mk_entry (Some (mk_struct_time 2024 3 13 23 59 60)) [])
             [] ValueError eq_refl).
    + repeat (constructor; [eexists; reflexivity | ]). constructor.
    + reflexivity.
Defined.

(** ** The primary fetcher as a map *)

Lemma newsapi_article_record a :
  newsapi_article a
  = if record_ok a then Ok (newsapi_article_of a) else Raise AttributeError.
Proof.
  destruct a as [ | b | z | s | l | d]; try reflexivity.
  unfold record_ok. destruct (lookup "source" d) as [v | ] eqn:Hsrc.
  - destruct (is_dict v) eqn:Hv.
    + destruct v; try discriminate.
      rewrite (newsapi_article_object d); [ | right; eauto].
      unfold newsapi_article_of. rewrite Hsrc. reflexivity.
    + exact (newsapi_article_source_not_object d v Hsrc Hv).
  - rewrite (newsapi_article_object d); [ | left; exact Hsrc].
    unfold newsapi_article_of. rewrite Hsrc. reflexivity.
Qed.

Lemma newsapi_loop_map items arts :
  newsapi_loop items arts
  = if forallb record_ok items
    then Ok (arts ++ map newsapi_article_of items)%list
    else Raise AttributeError.
Proof.
  revert arts. induction items as [ | a items IH]; intros arts;
    cbn [newsapi_loop forallb map].
  - rewrite app_nil_r. reflexivity.
  - rewrite newsapi_article_record. destruct (record_ok a); cbn [rbind andb];
      [ | reflexivity].
    rewrite IH. destruct (forallb record_ok items); [ | reflexivity].
    rewrite <- app_assoc. reflexivity.
Qed.

(** X5. When the body of the response is an object whose [articles] is a
    list, [fetch_news_newsapi] is all or nothing: it returns one article per
    record, in the order of the response, when every record is an object
    whose [source] is missing or an object; a single record that is not
    makes the whole call raise [AttributeError], and no article is
    returned. *)
Theorem fetch_news_newsapi_all_or_nothing w q fd r d items :
  requests_get w q (isoformat fd) (NEWSAPI_KEY w) = Ok r ->
  json r = Ok (PDict d) ->
  lookup "articles" d = Some (PList items) ->
  fst (run (fetch_news_newsapi w q fd))
  = (if forallb record_ok items
     then Ok (map newsapi_article_of items)
     else Raise AttributeError)
  /\ (forall arts, fst (run (fetch_news_newsapi w q fd)) = Ok arts ->
        List.length arts = List.length items).
Proof.
  intros Hr Hjson Hitems.
  assert (Hrun : fst (run (fetch_news_newsapi w q fd))
                 = if forallb record_ok items
                   then Ok (map newsapi_article_of items)
                   else Raise AttributeError).
  { unfold run. rewrite run_fetch_news_newsapi. cbn [fst].
    unfold newsapi_outcome, newsapi_articles. rewrite Hr. cbn [rbind].
    rewrite Hjson. cbn [rbind py_get]. unfold dict_get. rewrite Hitems.
    cbn [rbind py_iter]. apply newsapi_loop_map. }
  split; [exact Hrun | ].
  intros arts Harts. rewrite Hrun in Harts.
  destruct (forallb record_ok items); [ | discriminate].
  injection Harts as <-. apply length_map.
Qed.

Lemma fetch_news_newsapi_all_or_nothing_witness :
  List.length
    (match fst (run (fetch_news_newsapi world_sixty DEFAULT_QUERY sample_from))
     with
     | Ok arts => arts
     | Raise _ => []
     end) = 60%nat.
Proof.
  rewrite (proj1 (fetch_news_newsapi_all_or_nothing world_sixty DEFAULT_QUERY
                    sample_from _ _ sixty_records eq_refl eq_refl eq_refl)).
  reflexivity.
Defined.

(** ** The shape of the articles *)

(** A list that [get_news] returns is the sorted and sliced list of one
    fetcher. *)
Lemma get_news_source w days q l t :
  run (get_news w days q) = (Ok l, t) ->
  exists fd news,
    datetime_sub_days (utcnow w) days = Ok fd
    /\ (newsapi_outcome w q fd = Ok news \/ rss_outcome w q fd = Ok news)
    /\ newest_50 news = Ok l.
Proof.
  intros Hrun.
  destruct (datetime_sub_days (utcnow w) days) as [fd | e] eqn:Hfd;
    [ | rewrite (run_get_news_overflow _ _ _ _ Hfd) in Hrun; discriminate].
  exists fd.
  rewrite (run_get_news _ _ _ _ Hfd), run_primary_attempt in Hrun.
  destruct (truthy (env_value (NEWSAPI_KEY w)));
    [destruct (newsapi_outcome w q fd) as [news | e] eqn:Hnews | ];
    injection Hrun as Hl _.
  - exists news. auto.
  - bind_inv Hl news Hrss. exists news. auto.
  - bind_inv Hl news Hrss. exists news. auto.
Qed.

Lemma rss_article_of_well_shaped e pub : well_shaped (rss_article_of e pub).
Proof.
  unfold well_shaped, article_keys. cbn [rss_article_of map fst].
  apply perm_skip, perm_swap.
Qed.

Lemma newsapi_article_of_well_shaped a :
  record_ok a = true -> well_shaped (newsapi_article_of a).
Proof.
  destruct a; try discriminate. intros _. apply Permutation_refl.
Qed.

Lemma rss_outcome_well_shaped w q fd news :
  rss_outcome w q fd = Ok news -> Forall well_shaped news.
Proof.
  unfold rss_outcome. intros H. bind_inv H entries Hentries.
  rewrite (rss_loop_filter_map _ _ (rss_loop_ok_valid _ _ _ H)) in H.
  injection H as <-. apply Forall_map, Forall_forall.
  intros e _. apply rss_article_of_well_shaped.
Qed.

Lemma newsapi_outcome_well_shaped w q fd news :
  newsapi_outcome w q fd = Ok news -> Forall well_shaped news.
Proof.
  unfold newsapi_outcome, newsapi_articles. intros H.
  bind_inv H r Hr. bind_inv H data Hdata. bind_inv H articles Harticles.
  bind_inv H items Hitems. rewrite newsapi_loop_map in H.
  destruct (forallb record_ok items) eqn:Hok; [ | discriminate].
  injection H as <-. apply Forall_map, Forall_forall. intros a Ha.
  apply newsapi_article_of_well_shaped.
  exact (proj1 (forallb_forall _ _) Hok a Ha).
Qed.

Lemma lookup_key_in k (d : dict) : In k (map fst d) -> lookup k d <> None.
Proof.
  induction d as [ | [k' v] d IH]; cbn [map fst lookup In]; [contradiction | ].
  intros [-> | Hin].
  - rewrite String.eqb_refl. discriminate.
  - destruct (String.eqb k k'); [discriminate | exact (IH Hin)].
Qed.

Lemma well_shaped_lookup art k :
  well_shaped art -> In k article_keys -> lookup k art <> None.
Proof.
  intros Hshape Hk. apply lookup_key_in.
  exact (Permutation_in _ (Permutation_sym Hshape) Hk).
Qed.

(** X6. Every article of a list that [get_news] returns is a dictionary
    with exactly the keys [title], [source], [url], [publishedAt] and
    [description], whichever fetcher built it; so each of these keys can be
    looked up in it. *)
Theorem get_news_articles_well_shaped w days q l t :
  run (get_news w days q) = (Ok l, t) ->
  Forall (fun art =>
            well_shaped art
            /\ forall k, In k article_keys -> lookup k art <> None) l.
Proof.
  intros Hrun.
  destruct (get_news_source _ _ _ _ _ Hrun) as [fd [news [_ [Hsrc Hl]]]].
  assert (Hnews : Forall well_shaped news).
  { destruct Hsrc as [H | H];
      [exact (newsapi_outcome_well_shaped _ _ _ _ H)
      | exact (rss_outcome_well_shaped _ _ _ _ H)]. }
  apply Forall_forall. intros art Hart.
  assert (Hshape : well_shaped art).
  { exact (proj1 (Forall_forall _ _) Hnews art (newest_50_incl _ _ Hl art Hart)). }
  split; [exact Hshape | ].
  intros k. apply well_shaped_lookup. exact Hshape.
Qed.

Lemma get_news_articles_well_shaped_witness :
  exists l t,
    run (get_news world_sixty 7 DEFAULT_QUERY) = (Ok l, t)
    /\ List.length l = 50%nat
    /\ Forall (fun art =>
                 well_shaped art
                 /\ forall k, In k article_keys -> lookup k art <> None) l.
Proof.
  eexists. eexists. split; [vm_compute; reflexivity | ].
  split; [reflexivity | ].
  apply (get_news_articles_well_shaped world_sixty 7 DEFAULT_QUERY _
           [CallPrimary DEFAULT_QUERY sample_from]).
  vm_compute. reflexivity.
Defined.

(** ** What the sort keeps and what the slice drops *)

(** A list already in descending key order is returned as it is: the sort
    is stable. *)
Lemma sorted_reverse_sorted_input news :
  Sorted not_below news -> sorted_reverse sort_key news = Ok news.
Proof.
  induction 1 as [ | x l _ IH Hhd]; [reflexivity | ].
  cbn [sorted_reverse]. rewrite IH. cbn [rbind].
  destruct Hhd as [ | y l Hxy]; [reflexivity | ].
  cbn [insert_desc]. unfold not_below in Hxy. rewrite Hxy. reflexivity.
Qed.

(** X7. When the list of the fetcher that is used is already in descending
    order of the sort key, as the API is asked to deliver it, [get_news]
    returns its first 50 articles unchanged: articles with equal timestamps
    keep the order the fetcher gave them. *)
Theorem get_news_keeps_sorted_input w days q fd r t1 news :
  datetime_sub_days (utcnow w) days = Ok fd ->
  run (primary_attempt w q fd) = (r, t1) ->
  match r with
  | Raise _ => rss_outcome w q fd
  | Ok _ => r
  end = Ok news ->
  Sorted not_below news ->
  fst (run (get_news w days q)) = Ok (firstn 50 news).
Proof.
  intros Hfd Hrun Hsource Hsorted.
  assert (Hl : newest_50 news = Ok (firstn 50 news)).
  { unfold newest_50. rewrite (sorted_reverse_sorted_input _ Hsorted).
    reflexivity. }
  rewrite (run_get_news _ _ _ _ Hfd), Hrun.
  destruct r as [news' | e].
  - injection Hsource as ->. exact Hl.
  - cbn [fst]. rewrite Hsource. exact Hl.
Qed.

(** Two feed entries of the same minute, in the order of the feed. *)
Lemma get_news_keeps_sorted_input_witness :
  fst (run (get_news
              (world_no_key
                 [entry_recent;
                  mk_entry (Some (mk_struct_time 2024 3 13 9 30 0))
                    [("title", PStr "Second of the same minute")];
                  entry_stale]) 30 DEFAULT_QUERY))
  = Ok [rss_article_of entry_recent (Some (mk_datetime 2024 3 13 9 30 0 0));
        [("title", PStr "Second of the same minute"); ("url", PNone);
         ("source", PNone); ("publishedAt", PStr "2024-03-13T09:30:00");
         ("description", PNone)];
        rss_article_of entry_stale (Some (mk_datetime 2024 3 5 9 30 0 0))].
Proof.
  apply (get_news_keeps_sorted_input
           (world_no_key
              [entry_recent;
               mk_entry (Some (mk_struct_time 2024 3 13 9 30 0))
                 [("title", PStr "Second of the same minute")];
               entry_stale]) 30 DEFAULT_QUERY
           (mk_datetime 2024 2 14 9 30 0 250000)
           (Raise (RuntimeError "No NewsAPI key, fallback")) []
           [rss_article_of entry_recent
              (Some (mk_datetime 2024 3 13 9 30 0 0));
            [("title", PStr "Second of the same minute"); ("url", PNone);
             ("source", PNone); ("publishedAt", PStr "2024-03-13T09:30:00");
             ("description", PNone)];
            rss_article_of entry_stale
              (Some (mk_datetime 2024 3 5 9 30 0 0))]).
  - reflexivity.
  - reflexivity.
  - reflexivity.
  - repeat constructor.
Defined.

Lemma leb_trans a b c :
  String.leb a b = true -> String.leb b c = true -> String.leb a c = true.
Proof.
  unfold String.leb. revert b c.
  induction a as [ | x a IH]; intros [ | y b] [ | z c]; cbn [String.compare];
    try congruence.
  unfold Ascii.compare.
  destruct (N.compare_spec (N_of_ascii x) (N_of_ascii y)) as [Hxy | Hxy | Hxy];
    destruct (N.compare_spec (N_of_ascii y) (N_of_ascii z)) as [Hyz | Hyz | Hyz];
    destruct (N.compare_spec (N_of_ascii x) (N_of_ascii z)) as [Hxz | Hxz | Hxz];
    try congruence; try lia.
  apply IH.
Qed.

Lemma StronglySorted_app_inv {A} (R : A -> A -> Prop) l1 l2 :
  StronglySorted R (l1 ++ l2) ->
  forall a b, In a l1 -> In b l2 -> R a b.
Proof.
  induction l1 as [ | x l1 IH]; intros Hs a b Ha Hb; [contradiction | ].
  cbn [app] in Hs. apply StronglySorted_inv in Hs. destruct Hs as [Hs Hall].
  destruct Ha as [-> | Ha].
  - exact (proj1 (Forall_forall _ _) Hall b (in_or_app _ _ _ (or_intror Hb))).
  - exact (IH Hs a b Ha Hb).
Qed.

(** What [newest_50] returns is at least as recent as what it drops. *)
Lemma newest_50_most_recent news l :
  Forall timestamp_ok news -> newest_50 news = Ok l ->
  exists rest,
    Permutation news (l ++ rest)
    /\ forall a b, In a l -> In b rest -> newer_or_equal a b = true.
Proof.
  unfold newest_50. generalize 50%nat. intros n Hok H.
  bind_inv H s Hs. injection H as <-. exists (skipn n s). split.
  - rewrite firstn_skipn. exact (sorted_reverse_perm _ _ _ Hs).
  - apply (StronglySorted_app_inv (fun a b => newer_or_equal a b = true)).
    rewrite firstn_skipn. apply Sorted_StronglySorted.
    + intros a b c. unfold newer_or_equal. intros Hab Hbc.
      exact (leb_trans _ _ _ Hbc Hab).
    + apply (Sorted_weaken not_below _ timestamp_ok).
      * intros a b. apply not_below_newer.
      * exact (sorted_reverse_Forall _ _ _ _ Hok Hs).
      * exact (sorted_reverse_sorted _ _ Hok Hs).
Qed.

(** A list that [get_news] returns is the sorted and sliced list of the
    fetcher that was used: the primary when the key is set and the primary
    returned, the fallback when there is no key or the primary raised. *)
Lemma get_news_source_used w days q l t :
  run (get_news w days q) = (Ok l, t) ->
  exists fd news,
    datetime_sub_days (utcnow w) days = Ok fd
    /\ ((truthy (env_value (NEWSAPI_KEY w)) = true
         /\ newsapi_outcome w q fd = Ok news)
        \/ ((truthy (env_value (NEWSAPI_KEY w)) = false
             \/ exists e, newsapi_outcome w q fd = Raise e)
            /\ rss_outcome w q fd = Ok news))
    /\ newest_50 news = Ok l.
Proof.
  intros Hrun.
  destruct (datetime_sub_days (utcnow w) days) as [fd | e] eqn:Hfd;
    [ | rewrite (run_get_news_overflow _ _ _ _ Hfd) in Hrun; discriminate].
  exists fd.
  rewrite (run_get_news _ _ _ _ Hfd), run_primary_attempt in Hrun.
  destruct (truthy (env_value (NEWSAPI_KEY w))) eqn:Hkey;
    [destruct (newsapi_outcome w q fd) as [news | e] eqn:Hnews | ];
    injection Hrun as Hl _.
  - exists news. split; [reflexivity | split; [left | ]]; auto.
  - bind_inv Hl news Hrss. exists news.
    split; [reflexivity | split; [right; split; [right; exists e | ] | ]];
      auto.
  - bind_inv Hl news Hrss. exists news.
    split; [reflexivity | split; [right; split; [left | ] | ]]; auto.
Qed.

(** X8. A list that [get_news] returns holds the most recent articles of
    the fetcher that was used for the [from_date] of the call, the primary
    when the key is set and the primary returned, the fallback when there is
    no key or the primary raised: the fetcher's list is the returned list
    together with the dropped articles, and no dropped article has a
    timestamp greater than that of a returned one.  (The timestamps of the
    primary's articles are taken to be strings or [None].) *)
Theorem get_news_most_recent w days q l t :
  (forall fd news,
     datetime_sub_days (utcnow w) days = Ok fd ->
     newsapi_outcome w q fd = Ok news -> Forall timestamp_ok news) ->
  run (get_news w days q) = (Ok l, t) ->
  exists fd news rest,
    datetime_sub_days (utcnow w) days = Ok fd
    /\ ((truthy (env_value (NEWSAPI_KEY w)) = true
         /\ newsapi_outcome w q fd = Ok news)
        \/ ((truthy (env_value (NEWSAPI_KEY w)) = false
             \/ exists e, newsapi_outcome w q fd = Raise e)
            /\ rss_outcome w q fd = Ok news))
    /\ Permutation news (l ++ rest)
    /\ forall a b, In a l -> In b rest -> newer_or_equal a b = true.
Proof.
  intros Hprimary Hrun.
  destruct (get_news_source_used _ _ _ _ _ Hrun)
    as [fd [news [Hfd [Hsrc Hl]]]].
  assert (Hok : Forall timestamp_ok news).
  { destruct Hsrc as [[_ H] | [_ H]]; [exact (Hprimary _ _ Hfd H) | ].
    unfold rss_outcome in H. bind_inv H entries Hentries.
    exact (rss_loop_timestamp_ok _ _ _ H). }
  destruct (newest_50_most_recent _ _ Hok Hl) as [rest [Hperm Hrecent]].
  exists fd, news, rest. auto.
Qed.

Lemma get_news_most_recent_witness :
  exists l news rest,
    fst (run (get_news world_sixty 7 DEFAULT_QUERY)) = Ok l
    /\ List.length l = 50%nat
    /\ newsapi_outcome world_sixty DEFAULT_QUERY sample_from = Ok news
    /\ List.length news = 60%nat
    /\ Permutation news (l ++ rest)
    /\ forall a b, In a l -> In b rest -> newer_or_equal a b = true.
Proof.
  destruct (get_news_most_recent world_sixty 7 DEFAULT_QUERY
              (firstn 50 (rev (map newsapi_article_of sixty_records)))
              [CallPrimary DEFAULT_QUERY sample_from])
    as [fd [news [rest [Hfd [Hsrc [Hperm Hrecent]]]]]].
  - intros fd news _ H. vm_compute in H. injection H as <-.
    repeat (constructor; [right; eexists; reflexivity | ]). constructor.
  - vm_compute. reflexivity.
  - assert (Hfrom : fd = sample_from).
    { vm_compute in Hfd. injection Hfd as <-. reflexivity. }
    subst fd.
    destruct Hsrc as [[_ Hnews] | [[Hkey | [e He]] _]];
      [ | discriminate Hkey | vm_compute in He; discriminate He].
    exists (firstn 50 (rev (map newsapi_article_of sixty_records))), news,
      rest.
    split; [vm_compute; reflexivity | split; [reflexivity | ]].
    split; [exact Hnews | split; [ | auto]].
    vm_compute in Hnews. injection Hnews as <-. reflexivity.
Defined.

(** * The calendar behind [from_date] *)

(** ** The lexicographic order *)

Lemma lex_lt_trans a b c :
  lex_lt a b = true -> lex_lt b c = true -> lex_lt a c = true.
Proof.
  revert b c. induction a as [ | x a IH]; intros [ | y b] [ | z c];
    cbn [lex_lt]; try congruence.
  rewrite !orb_true_iff, !andb_true_iff, !Z.ltb_lt, !Z.eqb_eq.
  intros [Hxy | [Hxy Hab]] [Hyz | [Hyz Hbc]]; try (left; lia).
  right. split; [lia | exact (IH _ _ Hab Hbc)].
Qed.

Lemma lex_lt_irrefl a : lex_lt a a = false.
Proof.
  induction a as [ | x a IH]; cbn [lex_lt]; [reflexivity | ].
  rewrite Z.ltb_irrefl, Z.eqb_refl, IH. reflexivity.
Qed.

Lemma lex_lt_asym a b : lex_lt a b = true -> lex_lt b a = false.
Proof.
  intros Hab. destruct (lex_lt b a) eqn:Hba; [ | reflexivity].
  rewrite <- (lex_lt_irrefl a). symmetry. exact (lex_lt_trans _ _ _ Hab Hba).
Qed.

(** Lists of equal length stay in order when they are extended. *)
Lemma lex_lt_app a b t t' :
  List.length a = List.length b -> lex_lt a b = true ->
  lex_lt (a ++ t) (b ++ t') = true.
Proof.
  revert b. induction a as [ | x a IH]; intros [ | y b]; cbn [lex_lt app];
    try discriminate.
  intros Hlen. injection Hlen as Hlen.
  rewrite !orb_true_iff, !andb_true_iff.
  intros [H | [H Hab]]; [left; exact H | right; split; [exact H | auto]].
Qed.

(** ** The days and months of a year, one by one *)

Lemma in_range n len :
  0 <= n < Z.of_nat len -> In n (map Z.of_nat (seq 0 len)).
Proof.
  intros Hn. replace n with (Z.of_nat (Z.to_nat n)) by lia.
  apply in_map, in_seq. lia.
Qed.

Lemma months_checked :
  forallb (fun leap => forallb (month_ok leap) (map Z.of_nat (seq 1 12)))
    [true; false] = true.
Proof. vm_compute. reflexivity. Qed.

Lemma days_checked :
  forallb (fun leap => forallb (month_day_ok leap) (map Z.of_nat (seq 0 365)))
    [true; false] = true.
Proof. vm_compute. reflexivity. Qed.

Lemma month_facts leap m :
  1 <= m <= 12 ->
  0 <= month_start m leap /\ 1 <= month_length m leap
  /\ month_start m leap + month_length m leap
     = if m =? 12 then 365 + int_of_bool leap else month_start (m + 1) leap.
Proof.
  intros Hm.
  assert (H : month_ok leap m = true).
  { pose proof months_checked as Hall. cbn [forallb] in Hall.
    rewrite !andb_true_iff in Hall. destruct Hall as [Ht [Hf _]].
    assert (Hin : In m (map Z.of_nat (seq 1 12))).
    { replace m with (Z.of_nat (Z.to_nat m)) by lia.
      apply in_map, in_seq. lia. }
    destruct leap; [exact (proj1 (forallb_forall _ _) Ht m Hin)
                   | exact (proj1 (forallb_forall _ _) Hf m Hin)]. }
  unfold month_ok in H. rewrite !andb_true_iff, !Z.leb_le, Z.eqb_eq in H.
  intuition.
Qed.

Lemma month_day_facts leap n m d :
  0 <= n < 365 -> month_day n leap = (m, d) ->
  1 <= m <= 12 /\ 1 <= d <= month_length m leap
  /\ month_start m leap + d = n + 1.
Proof.
  intros Hn Hmd.
  assert (H : month_day_ok leap n = true).
  { pose proof days_checked as Hall. cbn [forallb] in Hall.
    rewrite !andb_true_iff in Hall. destruct Hall as [Ht [Hf _]].
    pose proof (in_range n 365 ltac:(lia)) as Hin.
    destruct leap; [exact (proj1 (forallb_forall _ _) Ht n Hin)
                   | exact (proj1 (forallb_forall _ _) Hf n Hin)]. }
  unfold month_day_ok in H. rewrite Hmd in H.
  rewrite !andb_true_iff, !Z.leb_le, Z.eqb_eq in H. intuition.
Qed.

(** ** The years *)

Lemma year_length y :
  days_before_year (y + 1) = days_before_year y + 365 + int_of_bool (is_leap y).
Proof.
  unfold days_before_year, is_leap, int_of_bool.
  replace (y + 1 - 1) with y by lia.
  destruct (Z.eqb_spec (y mod 4) 0); destruct (Z.eqb_spec (y mod 100) 0);
    destruct (Z.eqb_spec (y mod 400) 0); cbn [negb andb orb];
    Z.div_mod_to_equations; lia.
Qed.

Lemma days_before_year_mono y y' :
  y <= y' -> days_before_year y <= days_before_year y'.
Proof.
  unfold days_before_year. intros H. Z.div_mod_to_equations. lia.
Qed.

(** ** From the ordinal to the date and back *)

(** [ord2ymd], with its steps named. *)
Lemma ord2ymd_steps n :
  ord2ymd n
  = let a := (n - 1) / 146097 in
    let r400 := (n - 1) mod 146097 in
    let b := r400 / 36524 in
    let r100 := r400 mod 36524 in
    let c := r100 / 1461 in
    let r4 := r100 mod 1461 in
    let e := r4 / 365 in
    let r1 := r4 mod 365 in
    let y := a * 400 + 1 + b * 100 + c * 4 + e in
    if (e =? 4) || (b =? 4) then (y - 1, 12, 31)
    else
      let '(m, d) :=
        month_day r1 ((e =? 3) && (negb (c =? 24) || (b =? 3))) in
      (y, m, d).
Proof.
  unfold ord2ymd, month_day. cbv zeta.
  repeat match goal with
         | |- context [if ?c then _ else _] => destruct c
         end; reflexivity.
Qed.

Lemma days_in_month_length y m :
  days_in_month y m = month_length m (is_leap y).
Proof. reflexivity. Qed.

Lemma days_before_month_start y m :
  days_before_month y m = month_start m (is_leap y).
Proof. reflexivity. Qed.

(** The date of a day has the day as its ordinal, and is a date. *)
Lemma ord2ymd_ymd2ord n y m d :
  1 <= n -> ord2ymd n = (y, m, d) ->
  ymd2ord y m d = n /\ 1 <= y /\ 1 <= m <= 12 /\ 1 <= d <= days_in_month y m.
Proof.
  intros Hn. rewrite ord2ymd_steps. cbv zeta.
  pose proof (Z.div_mod (n - 1) 146097 ltac:(lia)) as D400.
  pose proof (Z.mod_pos_bound (n - 1) 146097 ltac:(lia)) as B400.
  assert (Ha : 0 <= (n - 1) / 146097) by (apply Z.div_pos; lia).
  set (a := (n - 1) / 146097) in *. set (r400 := (n - 1) mod 146097) in *.
  pose proof (Z.div_mod r400 36524 ltac:(lia)) as D100.
  pose proof (Z.mod_pos_bound r400 36524 ltac:(lia)) as B100.
  set (b := r400 / 36524) in *. set (r100 := r400 mod 36524) in *.
  pose proof (Z.div_mod r100 1461 ltac:(lia)) as D4.
  pose proof (Z.mod_pos_bound r100 1461 ltac:(lia)) as B4.
  set (c := r100 / 1461) in *. set (r4 := r100 mod 1461) in *.
  pose proof (Z.div_mod r4 365 ltac:(lia)) as D1.
  pose proof (Z.mod_pos_bound r4 365 ltac:(lia)) as B1.
  set (e := r4 / 365) in *. set (r1 := r4 mod 365) in *.
  clearbody a r400 b r100 c r4 e r1.
  assert (Hb : 0 <= b <= 4) by lia.
  assert (Hc : 0 <= c <= 24) by lia.
  assert (He : 0 <= e <= 4) by lia.
  destruct ((e =? 4) || (b =? 4)) eqn:Hedge.
  - intros H.
    assert (Hy : y = a * 400 + 1 + b * 100 + c * 4 + e - 1) by congruence.
    assert (Hm : m = 12) by congruence.
    assert (Hd : d = 31) by congruence.
    subst y m d. clear H.
    apply orb_true_iff in Hedge. rewrite !Z.eqb_eq in Hedge.
    unfold ymd2ord, days_in_month, days_before_month, days_before_year.
    change (nth (Z.to_nat 12) DAYS_BEFORE_MONTH 0) with 334.
    change (nth (Z.to_nat 12) DAYS_IN_MONTH 0) with 31.
    change (2 <? 12) with true. change (12 =? 2) with false.
    cbn [andb]. unfold is_leap, int_of_bool.
    destruct (Z.eqb_spec ((a * 400 + 1 + b * 100 + c * 4 + e - 1) mod 4) 0);
      destruct (Z.eqb_spec
                  ((a * 400 + 1 + b * 100 + c * 4 + e - 1) mod 100) 0);
      destruct (Z.eqb_spec
                  ((a * 400 + 1 + b * 100 + c * 4 + e - 1) mod 400) 0);
      cbn [negb andb orb]; Z.div_mod_to_equations; lia.
  - apply orb_false_iff in Hedge. rewrite !Z.eqb_neq in Hedge.
    set (leap := (e =? 3) && (negb (c =? 24) || (b =? 3))).
    destruct (month_day r1 leap) as [m' d'] eqn:Hmd. intros H.
    assert (Hy : y = a * 400 + 1 + b * 100 + c * 4 + e) by congruence.
    assert (Hm : m = m') by congruence.
    assert (Hd : d = d') by congruence.
    subst m' d'. clear H.
    destruct (month_day_facts leap r1 m d B1 Hmd) as [Hmr [Hdr Hstart]].
    assert (Hleap : is_leap y = leap).
    { subst y leap. unfold is_leap.
      destruct (Z.eqb_spec ((a * 400 + 1 + b * 100 + c * 4 + e) mod 4) 0);
        destruct (Z.eqb_spec ((a * 400 + 1 + b * 100 + c * 4 + e) mod 100) 0);
        destruct (Z.eqb_spec ((a * 400 + 1 + b * 100 + c * 4 + e) mod 400) 0);
        destruct (Z.eqb_spec e 3); destruct (Z.eqb_spec c 24);
        destruct (Z.eqb_spec b 3); cbn [negb andb orb];
        try reflexivity; exfalso; Z.div_mod_to_equations; lia. }
    assert (Hyear : days_before_year y = n - 1 - r1).
    { subst y. unfold days_before_year. Z.div_mod_to_equations. lia. }
    unfold ymd2ord.
    rewrite days_in_month_length, days_before_month_start, Hleap, Hyear.
    repeat split; lia.
Qed.

(** ** The order of dates and of ordinals *)

Lemma month_start_next leap m k :
  1 <= m -> m + Z.of_nat k < 12 ->
  month_start m leap + month_length m leap
  <= month_start (m + 1 + Z.of_nat k) leap.
Proof.
  intros Hm. induction k as [ | k IH]; intros Hk.
  - destruct (month_facts leap m ltac:(lia)) as [_ [_ Hend]].
    replace (m =? 12) with false in Hend by (symmetry; apply Z.eqb_neq; lia).
    replace (m + 1 + Z.of_nat 0) with (m + 1) by lia. lia.
  - destruct (month_facts leap (m + 1 + Z.of_nat k) ltac:(lia))
      as [_ [Hlen Hend]].
    replace (m + 1 + Z.of_nat k =? 12) with false in Hend
      by (symmetry; apply Z.eqb_neq; lia).
    replace (m + 1 + Z.of_nat (S k)) with (m + 1 + Z.of_nat k + 1) by lia.
    specialize (IH ltac:(lia)). lia.
Qed.

Lemma month_start_lt leap m m' :
  1 <= m < m' -> m' <= 12 ->
  month_start m leap + month_length m leap <= month_start m' leap.
Proof.
  intros Hm Hm'.
  replace m' with (m + 1 + Z.of_nat (Z.to_nat (m' - m - 1))) by lia.
  apply month_start_next; lia.
Qed.

Lemma month_end_le leap m :
  1 <= m <= 12 ->
  month_start m leap + month_length m leap <= 365 + int_of_bool leap.
Proof.
  intros Hm. destruct (month_facts leap 12 ltac:(lia)) as [_ [Hlen Hend]].
  change (12 =? 12) with true in Hend. cbv iota in Hend.
  destruct (Z.eq_dec m 12) as [-> | Hne]; [lia | ].
  pose proof (month_start_lt leap m 12 ltac:(lia) ltac:(lia)). lia.
Qed.

Lemma lex_lt3_iff y m d y' m' d' :
  lex_lt [y; m; d] [y'; m'; d'] = true
  <-> y < y' \/ (y = y' /\ (m < m' \/ (m = m' /\ d < d'))).
Proof.
  cbn [lex_lt].
  destruct (Z.ltb_spec y y'); destruct (Z.eqb_spec y y');
    destruct (Z.ltb_spec m m'); destruct (Z.eqb_spec m m');
    destruct (Z.ltb_spec d d'); destruct (Z.eqb_spec d d');
    cbn [andb orb]; split; intros Hlt; try lia; try discriminate;
    reflexivity.
Qed.

(** Among dates, the earlier date has the smaller ordinal. *)
Lemma ymd2ord_lt y m d y' m' d' :
  1 <= m <= 12 -> 1 <= d <= days_in_month y m ->
  1 <= m' <= 12 -> 1 <= d' <= days_in_month y' m' ->
  lex_lt [y; m; d] [y'; m'; d'] = true ->
  ymd2ord y m d < ymd2ord y' m' d'.
Proof.
  intros Hm Hd Hm' Hd' Hlt. apply lex_lt3_iff in Hlt.
  unfold ymd2ord. rewrite !days_before_month_start.
  rewrite days_in_month_length in Hd, Hd'.
  pose proof (month_end_le (is_leap y) m Hm) as Hend.
  destruct (month_facts (is_leap y') m' Hm') as [Hstart' _].
  destruct Hlt as [Hy | [-> [Hmm | [-> Hdd]]]].
  - pose proof (year_length y) as Hlen.
    pose proof (days_before_year_mono (y + 1) y' ltac:(lia)). lia.
  - pose proof (month_start_lt (is_leap y') m m' ltac:(lia) ltac:(lia)). lia.
  - lia.
Qed.

Lemma lex_lt_total3 y m d y' m' d' :
  lex_lt [y; m; d] [y'; m'; d'] = true
  \/ (y = y' /\ m = m' /\ d = d')
  \/ lex_lt [y'; m'; d'] [y; m; d] = true.
Proof. rewrite !lex_lt3_iff. lia. Qed.

(** The date grows with the ordinal. *)
Lemma date_triple_lt a b :
  1 <= a < b -> lex_lt (date_triple a) (date_triple b) = true.
Proof.
  intros Hab. unfold date_triple.
  destruct (ord2ymd a) as [[y m] d] eqn:Ha.
  destruct (ord2ymd b) as [[y' m'] d'] eqn:Hb.
  destruct (ord2ymd_ymd2ord a y m d ltac:(lia) Ha) as [Hoa [_ [Hm Hd]]].
  destruct (ord2ymd_ymd2ord b y' m' d' ltac:(lia) Hb) as [Hob [_ [Hm' Hd']]].
  destruct (lex_lt_total3 y m d y' m' d') as [H | [[-> [-> ->]] | H]].
  - exact H.
  - lia.
  - pose proof (ymd2ord_lt _ _ _ _ _ _ Hm' Hd' Hm Hd H). lia.
Qed.

Lemma date_triple_length n : List.length (date_triple n) = 3%nat.
Proof. unfold date_triple. destruct (ord2ymd n) as [[y m] d]. reflexivity. Qed.

(** ** The lower bound of the window *)

(** The fields of a computed [from_date]: the date of the ordinal, and the
    time of day of the clock. *)
Lemma datetime_sub_days_fields now days fd :
  datetime_sub_days now days = Ok fd ->
  0 < toordinal now - days <= MAXORDINAL
  /\ Z.abs days <= 999999999
  /\ datetime_fields fd
     = (date_triple (toordinal now - days)
        ++ [hour now; minute now; second now; microsecond now])%list.
Proof.
  unfold datetime_sub_days, date_triple.
  destruct (999999999 <? Z.abs days) eqn:Habs; [discriminate | ].
  destruct ((0 <? toordinal now - days)
            && (toordinal now - days <=? MAXORDINAL)) eqn:Hn;
    [ | discriminate].
  apply andb_true_iff in Hn. destruct Hn as [Hlo Hhi].
  apply Z.ltb_lt in Hlo. apply Z.leb_le in Hhi. apply Z.ltb_ge in Habs.
  destruct (ord2ymd (toordinal now - days)) as [[y m] d].
  intros H. injection H as <-. repeat split; assumption.
Qed.

Lemma datetime_sub_days_overflow now days :
  999999999 < Z.abs days \/ toordinal now - days <= 0
  \/ MAXORDINAL < toordinal now - days ->
  datetime_sub_days now days = Raise OverflowError.
Proof.
  unfold datetime_sub_days. intros H.
  destruct (999999999 <? Z.abs days) eqn:Habs; [reflexivity | ].
  apply Z.ltb_ge in Habs.
  replace ((0 <? toordinal now - days)
           && (toordinal now - days <=? MAXORDINAL)) with false;
    [reflexivity | ].
  symmetry. apply andb_false_iff.
  destruct H as [H | [H | H]]; [lia | left | right];
    [apply Z.ltb_ge | apply Z.leb_gt]; lia.
Qed.

(** The log of [get_news] once [from_date] is computed: calls with the
    query and [from_date], at least one. *)
Lemma get_news_trace w days q fd :
  datetime_sub_days (utcnow w) days = Ok fd ->
  snd (run (get_news w days q)) = [CallPrimary q fd]
  \/ snd (run (get_news w days q)) = [CallPrimary q fd; CallFallback q fd]
  \/ snd (run (get_news w days q)) = [CallFallback q fd].
Proof.
  intros Hfd. rewrite (run_get_news _ _ _ _ Hfd), run_primary_attempt.
  destruct (truthy (env_value (NEWSAPI_KEY w)));
    [destruct (newsapi_outcome w q fd) | ]; cbn [snd app]; auto.
Qed.

(** X9. [get_news] computes [from_date] exactly when the number of days is
    at most 999999999 in absolute value and the day that many days before
    the clock's lies in the years 1 to 9999.  Then [from_date] is that day,
    a date of the calendar, at the clock's time of day, and every fetcher
    call of [get_news] receives the query and this [from_date].  Otherwise
    [get_news] raises [OverflowError] and calls no fetcher. *)
Theorem get_news_from_date w days q :
  (Z.abs days <= 999999999 ->
   0 < toordinal (utcnow w) - days <= MAXORDINAL ->
   exists fd,
     datetime_sub_days (utcnow w) days = Ok fd
     /\ toordinal fd = toordinal (utcnow w) - days
     /\ 1 <= year fd <= 9999 /\ 1 <= month fd <= 12
     /\ 1 <= day fd <= days_in_month (year fd) (month fd)
     /\ [hour fd; minute fd; second fd; microsecond fd]
        = [hour (utcnow w); minute (utcnow w); second (utcnow w);
           microsecond (utcnow w)]
     /\ snd (run (get_news w days q)) <> []
     /\ Forall (fun ev => ev = CallPrimary q fd \/ ev = CallFallback q fd)
          (snd (run (get_news w days q))))
  /\ (999999999 < Z.abs days \/ toordinal (utcnow w) - days <= 0
      \/ MAXORDINAL < toordinal (utcnow w) - days ->
      run (get_news w days q) = (Raise OverflowError, [])).
Proof.
  split.
  - intros Habs Hn.
    destruct (datetime_sub_days (utcnow w) days) as [fd | e] eqn:Hfd.
    + exists fd. split; [reflexivity | ].
      destruct (datetime_sub_days_fields _ _ _ Hfd) as [_ [_ Hfields]].
      unfold date_triple in Hfields.
      destruct (ord2ymd (toordinal (utcnow w) - days)) as [[y m] d] eqn:Hymd.
      assert (Hpos : 1 <= toordinal (utcnow w) - days) by lia.
      destruct (ord2ymd_ymd2ord _ _ _ _ Hpos Hymd) as [Hord [Hy [Hm Hd]]].
      unfold datetime_fields in Hfields. cbn [app] in Hfields.
      assert (Hdate : year fd = y /\ month fd = m /\ day fd = d)
        by (repeat split; congruence).
      destruct Hdate as [Hfy [Hfm Hfd']].
      unfold toordinal at 1. rewrite Hfy, Hfm, Hfd'.
      assert (Hmax : y <= 9999).
      { destruct (Z.eq_dec (toordinal (utcnow w) - days) MAXORDINAL)
          as [Heq | Hne].
        - rewrite Heq in Hymd.
          assert (y = 9999) by (vm_compute in Hymd; congruence). lia.
        - assert (Hlt : lex_lt (date_triple (toordinal (utcnow w) - days))
                          (date_triple MAXORDINAL) = true)
            by (apply date_triple_lt; lia).
          unfold date_triple at 1 in Hlt. rewrite Hymd in Hlt.
          change (date_triple MAXORDINAL) with [9999; 12; 31] in Hlt.
          cbn [lex_lt] in Hlt. apply orb_true_iff in Hlt.
          destruct Hlt as [Hlt | Hlt];
            [apply Z.ltb_lt in Hlt; lia | ].
          apply andb_true_iff in Hlt. destruct Hlt as [Hlt _].
          apply Z.eqb_eq in Hlt. lia. }
      repeat split; try lia; try congruence.
      * destruct (get_news_trace w days q fd Hfd) as [-> | [-> | ->]];
          discriminate.
      * destruct (get_news_trace w days q fd Hfd) as [-> | [-> | ->]];
          repeat (apply Forall_cons;
                  [first [left; reflexivity | right; reflexivity] | ]);
          apply Forall_nil.
    + exfalso.
      unfold datetime_sub_days in Hfd.
      replace (999999999 <? Z.abs days) with false in Hfd
        by (symmetry; apply Z.ltb_ge; lia).
      replace ((0 <? toordinal (utcnow w) - days)
               && (toordinal (utcnow w) - days <=? MAXORDINAL))
        with true in Hfd
        by (symmetry; apply andb_true_iff; split;
            [apply Z.ltb_lt | apply Z.leb_le]; lia).
      destruct (ord2ymd (toordinal (utcnow w) - days)) as [[y m] d].
      discriminate.
  - intros H. apply run_get_news_overflow.
    exact (datetime_sub_days_overflow _ _ H).
Qed.

Lemma get_news_from_date_witness :
  (exists fd,
     datetime_sub_days (utcnow world_timeout) 180 = Ok fd
     /\ toordinal fd = toordinal (utcnow world_timeout) - 180
     /\ fd = mk_datetime 2023 9 17 9 30 0 250000)
  /\ run (get_news world_timeout 1000000 DEFAULT_QUERY)
     = (Raise OverflowError, []).
Proof.
  destruct (get_news_from_date world_timeout 180 DEFAULT_QUERY)
    as [Hin _].
  destruct (get_news_from_date world_timeout 1000000 DEFAULT_QUERY)
    as [_ Hout].
  split.
  - destruct (Hin ltac:(vm_compute; discriminate)
                  ltac:(split; vm_compute; [reflexivity | discriminate]))
      as [fd [Hfd [Hord _]]].
    exists fd. split; [exact Hfd | split; [exact Hord | ]].
    vm_compute in Hfd. congruence.
  - apply Hout. right. left. vm_compute. discriminate.
Defined.

(** ** A wider window *)

(** An earlier lower bound: what is too old for it is too old for a later
    one. *)
Lemma from_date_earlier now d1 d2 fd1 fd2 p :
  d1 <= d2 ->
  datetime_sub_days now d1 = Ok fd1 -> datetime_sub_days now d2 = Ok fd2 ->
  datetime_lt p fd2 = true -> datetime_lt p fd1 = true.
Proof.
  intros Hd H1 H2.
  destruct (datetime_sub_days_fields _ _ _ H1) as [Hn1 [_ Hf1]].
  destruct (datetime_sub_days_fields _ _ _ H2) as [Hn2 [_ Hf2]].
  unfold datetime_lt. rewrite Hf1, Hf2.
  destruct (Z.eq_dec d1 d2) as [-> | Hne]; [auto | ].
  intros Hp. apply (lex_lt_trans _ _ _ Hp).
  apply lex_lt_app; [rewrite !date_triple_length; reflexivity | ].
  apply date_triple_lt. lia.
Qed.

Lemma kept_wider now d1 d2 fd1 fd2 e :
  d1 <= d2 ->
  datetime_sub_days now d1 = Ok fd1 -> datetime_sub_days now d2 = Ok fd2 ->
  kept fd1 e = true -> kept fd2 e = true.
Proof.
  intros Hd H1 H2. unfold kept, too_old.
  destruct (pub_of e) as [p | ]; [ | reflexivity].
  destruct (datetime_lt p fd2) eqn:Hp; [ | reflexivity].
  rewrite (from_date_earlier _ _ _ _ _ _ Hd H1 H2 Hp). discriminate.
Qed.

(** X10. A wider window loses nothing: when [fetch_news_rss] returns for
    the lower bound of [d1] days, it also returns for that of [d2 >= d1]
    days on the same feed and clock, and every article of the narrower
    window is among those of the wider one. *)
Theorem fetch_news_rss_wider_window w q d1 d2 fd1 fd2 arts1 :
  d1 <= d2 ->
  datetime_sub_days (utcnow w) d1 = Ok fd1 ->
  datetime_sub_days (utcnow w) d2 = Ok fd2 ->
  fst (run (fetch_news_rss w q fd1)) = Ok arts1 ->
  exists arts2,
    fst (run (fetch_news_rss w q fd2)) = Ok arts2
    /\ incl arts1 arts2
    /\ (List.length arts1 <= List.length arts2)%nat.
Proof.
  intros Hd H1 H2. unfold run. rewrite !run_fetch_news_rss. cbn [fst].
  unfold rss_outcome. intros Harts. bind_inv Harts entries Hentries.
  cbn [rbind].
  pose proof (rss_loop_ok_valid _ _ _ Harts) as Hvalid.
  rewrite (rss_loop_filter_map _ _ Hvalid) in Harts. injection Harts as <-.
  rewrite (rss_loop_filter_map _ _ Hvalid). eexists. split; [reflexivity | ].
  split.
  - apply incl_map. intros e He. apply filter_In in He.
    destruct He as [He Hk]. apply filter_In. split; [exact He | ].
    exact (kept_wider _ _ _ _ _ _ Hd H1 H2 Hk).
  - rewrite !length_map. clear Hvalid Hentries.
    induction entries as [ | e rest IH]; [apply Nat.le_refl | ].
    cbn [filter]. destruct (kept fd1 e) eqn:Hk.
    + rewrite (kept_wider _ _ _ _ _ _ Hd H1 H2 Hk). cbn [List.length]. lia.
    + destruct (kept fd2 e); cbn [List.length]; lia.
Qed.

Lemma fetch_news_rss_wider_window_witness :
  exists arts2,
    fst (run (fetch_news_rss
                (world_no_key [entry_recent; entry_stale; entry_undated])
                DEFAULT_QUERY (mk_datetime 2024 2 14 9 30 0 250000)))
    = Ok arts2
    /\ incl [rss_article_of entry_recent
               (Some (mk_datetime 2024 3 13 9 30 0 0));
             rss_article_of entry_undated None] arts2
    /\ List.length arts2 = 3%nat.
Proof.
  destruct (fetch_news_rss_wider_window
              (world_no_key [entry_recent; entry_stale; entry_undated])
              DEFAULT_QUERY 7 30 sample_from
              (mk_datetime 2024 2 14 9 30 0 250000)
              [rss_article_of entry_recent
                 (Some (mk_datetime 2024 3 13 9 30 0 0));
               rss_article_of entry_undated None]
              ltac:(lia) eq_refl eq_refl eq_refl)
    as [arts2 [Harts [Hincl _]]].
  exists arts2. split; [exact Harts | split; [exact Hincl | ]].
  vm_compute in Harts. injection Harts as <-. reflexivity.
Defined.

(** * Timestamps as strings *)

(** ** Comparing zero-padded numbers *)

Lemma compare_app a1 a2 r1 r2 :
  String.length a1 = String.length a2 ->
  String.compare (a1 ++ r1) (a2 ++ r2)
  = match String.compare a1 a2 with
    | Eq => String.compare r1 r2
    | c => c
    end.
Proof.
  revert a2. induction a1 as [ | c1 a1 IH]; intros [ | c2 a2] Hlen;
    try discriminate; [reflexivity | ].
  injection Hlen as Hlen. cbn [append String.compare].
  destruct (Ascii.compare c1 c2); [apply IH; exact Hlen | | ]; reflexivity.
Qed.

Lemma length_append_one s c :
  String.length (s ++ String c "") = S (String.length s).
Proof. induction s as [ | c' s IH]; cbn; [ | rewrite IH]; reflexivity. Qed.

Lemma zero_padded_length w n : String.length (zero_padded w n) = w.
Proof.
  revert n. induction w as [ | w IH]; intros n; [reflexivity | ].
  cbn [zero_padded]. rewrite length_append_one, IH. reflexivity.
Qed.

Lemma digit_compare a b :
  0 <= a < 10 -> 0 <= b < 10 ->
  Ascii.compare (ascii_of_N (48 + Z.to_N a)) (ascii_of_N (48 + Z.to_N b))
  = (a ?= b).
Proof.
  intros Ha Hb. unfold Ascii.compare.
  rewrite !N_ascii_embedding by lia.
  destruct (Z.compare_spec a b); [subst; apply N.compare_refl | | ].
  - apply N.compare_lt_iff. lia.
  - apply N.compare_gt_iff. lia.
Qed.

Lemma compare_by_tens n m :
  0 <= n -> 0 <= m ->
  (n ?= m)
  = match n / 10 ?= m / 10 with
    | Eq => n mod 10 ?= m mod 10
    | c => c
    end.
Proof.
  intros Hn Hm.
  pose proof (Z.div_mod n 10 ltac:(lia)).
  pose proof (Z.div_mod m 10 ltac:(lia)).
  pose proof (Z.mod_pos_bound n 10 ltac:(lia)).
  pose proof (Z.mod_pos_bound m 10 ltac:(lia)).
  destruct (Z.compare_spec (n / 10) (m / 10));
    destruct (Z.compare_spec (n mod 10) (m mod 10));
    first [apply Z.compare_eq_iff | apply Z.compare_lt_iff
          | apply Z.compare_gt_iff]; lia.
Qed.

(** Numbers of [w] digits compare as their zero-padded numerals do. *)
Lemma zero_padded_compare w n m :
  0 <= n < 10 ^ Z.of_nat w -> 0 <= m < 10 ^ Z.of_nat w ->
  String.compare (zero_padded w n) (zero_padded w m) = (n ?= m).
Proof.
  revert n m. induction w as [ | w IH]; intros n m Hn Hm.
  - cbn in Hn, Hm. replace n with 0 by lia. replace m with 0 by lia.
    reflexivity.
  - rewrite Nat2Z.inj_succ, Z.pow_succ_r in Hn, Hm by lia.
    cbn [zero_padded].
    rewrite compare_app by (rewrite !zero_padded_length; reflexivity).
    rewrite IH
      by (split; [apply Z.div_pos; lia | apply Z.div_lt_upper_bound; lia]).
    cbn [String.compare].
    rewrite digit_compare by (apply Z.mod_pos_bound; lia).
    rewrite (compare_by_tens n m) by lia.
    destruct (n / 10 ?= m / 10); [ | reflexivity | reflexivity].
    destruct (n mod 10 ?= m mod 10); reflexivity.
Qed.

(** ** Comparing [isoformat] strings *)

Lemma is_lt_step x y r :
  is_lt (match x ?= y with Eq => r | c => c end)
  = (x <? y) || ((x =? y) && is_lt r).
Proof.
  destruct (Z.compare_spec x y) as [-> | H | H].
  - rewrite Z.ltb_irrefl, Z.eqb_refl. reflexivity.
  - rewrite (proj2 (Z.ltb_lt x y) H). reflexivity.
  - rewrite (proj2 (Z.ltb_ge x y)) by lia.
    rewrite (proj2 (Z.eqb_neq x y)) by lia. reflexivity.
Qed.

Lemma field_compare w x y sep r1 r2 :
  0 <= x < 10 ^ Z.of_nat w -> 0 <= y < 10 ^ Z.of_nat w ->
  is_lt (String.compare (zero_padded w x ++ String sep r1)
           (zero_padded w y ++ String sep r2))
  = (x <? y) || ((x =? y) && is_lt (String.compare r1 r2)).
Proof.
  intros Hx Hy.
  rewrite compare_app by (rewrite !zero_padded_length; reflexivity).
  rewrite zero_padded_compare by assumption.
  cbn [String.compare]. unfold Ascii.compare at 1. rewrite N.compare_refl.
  apply is_lt_step.
Qed.

Lemma last_field_compare w x y :
  0 <= x < 10 ^ Z.of_nat w -> 0 <= y < 10 ^ Z.of_nat w ->
  is_lt (String.compare (zero_padded w x ++ "") (zero_padded w y ++ ""))
  = (x <? y) || ((x =? y) && false).
Proof.
  intros Hx Hy.
  rewrite compare_app by (rewrite !zero_padded_length; reflexivity).
  rewrite zero_padded_compare by assumption.
  cbn [String.compare]. apply (is_lt_step x y Eq).
Qed.

Lemma days_in_month_le y m : days_in_month y m <= 31.
Proof.
  unfold days_in_month. destruct ((m =? 2) && is_leap y); [lia | ].
  unfold DAYS_IN_MONTH. generalize (Z.to_nat m). intros k.
  do 13 (destruct k as [ | k]; [cbn; lia | ]). destruct k; cbn; lia.
Qed.

(** What the constructor lets through: fields in range, no microseconds. *)
Lemma datetime_new_fields y m d hh mm ss p :
  datetime_new y m d hh mm ss = Ok p ->
  p = mk_datetime y m d hh mm ss 0
  /\ 1 <= y <= 9999 /\ 1 <= m <= 12 /\ 1 <= d <= 31
  /\ 0 <= hh <= 23 /\ 0 <= mm <= 59 /\ 0 <= ss <= 59.
Proof.
  unfold datetime_new.
  match goal with |- context [if ?c then _ else _] => destruct c eqn:Hc end;
    [ | discriminate].
  intros H. injection H as <-.
  rewrite !andb_true_iff, !Z.leb_le in Hc.
  pose proof (days_in_month_le y m). repeat split; lia.
Qed.

(** For times the constructor built, the order of the [isoformat] strings
    is the order of the times. *)
Lemma isoformat_lt y m d hh mm ss p y' m' d' hh' mm' ss' p' :
  datetime_new y m d hh mm ss = Ok p ->
  datetime_new y' m' d' hh' mm' ss' = Ok p' ->
  String.ltb (isoformat p) (isoformat p') = datetime_lt p p'.
Proof.
  intros Hp Hp'.
  destruct (datetime_new_fields _ _ _ _ _ _ _ Hp)
    as [-> [Hy [Hm [Hd [Hhh [Hmm Hss]]]]]].
  destruct (datetime_new_fields _ _ _ _ _ _ _ Hp')
    as [-> [Hy' [Hm' [Hd' [Hhh' [Hmm' Hss']]]]]].
  unfold String.ltb. fold (is_lt (String.compare
                                    (isoformat (mk_datetime y m d hh mm ss 0))
                                    (isoformat
                                       (mk_datetime y' m' d' hh' mm' ss' 0)))).
  unfold isoformat, datetime_lt, datetime_fields.
  cbn [year month day hour minute second microsecond lex_lt Z.eqb].
  change ("-" ++ ?r)%string with (String "-" r).
  repeat match goal with
         | |- context [(String ?c "" ++ ?r)%string] =>
             change (String c "" ++ r)%string with (String c r)
         end.
  rewrite (field_compare 4) by (cbn; lia).
  rewrite (field_compare 2) by (cbn; lia).
  rewrite (field_compare 2) by (cbn; lia).
  rewrite (field_compare 2) by (cbn; lia).
  rewrite (field_compare 2) by (cbn; lia).
  rewrite (last_field_compare 2) by (cbn; lia).
  reflexivity.
Qed.

Lemma entry_pub_new e p :
  entry_pub e = Ok (Some p) ->
  exists y m d hh mm ss, datetime_new y m d hh mm ss = Ok p.
Proof.
  unfold entry_pub. destruct (published_parsed e) as [t | ]; [ | discriminate].
  destruct (datetime_new _ _ _ _ _ _) as [p' | err] eqn:Hnew; cbn [rbind];
    [ | discriminate].
  intros H. injection H as <-. eauto 7.
Qed.

Lemma leb_negb_ltb a b : String.leb b a = negb (String.ltb a b).
Proof.
  unfold String.leb, String.ltb. rewrite (String.compare_antisym a b).
  destruct (String.compare b a); reflexivity.
Qed.

(** X11. For two feed entries with publish times, the comparison of their
    articles' [publishedAt] strings, by which [get_news] sorts, is the
    comparison of the publish times: the sort puts dated feed articles in
    chronological order, latest first. *)
Theorem feed_sort_order_is_chronological e1 e2 p1 p2 :
  entry_pub e1 = Ok (Some p1) -> entry_pub e2 = Ok (Some p2) ->
  py_lt (sort_key (rss_article_of e1 (Some p1)))
        (sort_key (rss_article_of e2 (Some p2)))
  = Ok (datetime_lt p1 p2)
  /\ newer_or_equal (rss_article_of e1 (Some p1))
       (rss_article_of e2 (Some p2))
     = negb (datetime_lt p1 p2).
Proof.
  intros H1 H2.
  destruct (entry_pub_new _ _ H1) as [y [m [d [hh [mm [ss Hp1]]]]]].
  destruct (entry_pub_new _ _ H2) as [y' [m' [d' [hh' [mm' [ss' Hp2]]]]]].
  pose proof (isoformat_lt _ _ _ _ _ _ _ _ _ _ _ _ _ _ Hp1 Hp2) as Hlt.
  split.
  - change (Ok (String.ltb (isoformat p1) (isoformat p2))
            = Ok (datetime_lt p1 p2)).
    rewrite Hlt. reflexivity.
  - change (String.leb (isoformat p2) (isoformat p1)
            = negb (datetime_lt p1 p2)).
    rewrite leb_negb_ltb, Hlt. reflexivity.
Qed.

Lemma feed_sort_order_is_chronological_witness :
  py_lt (sort_key (rss_article_of entry_stale
                     (Some (mk_datetime 2024 3 5 9 30 0 0))))
        (sort_key (rss_article_of entry_recent
                     (Some (mk_datetime 2024 3 13 9 30 0 0))))
  = Ok true.
Proof.
  exact (proj1 (feed_sort_order_is_chronological entry_stale entry_recent
                  (mk_datetime 2024 3 5 9 30 0 0)
                  (mk_datetime 2024 3 13 9 30 0 0) eq_refl eq_refl)).
Defined.

(** * The tabs of the page *)

(** [get_news] only adds to the log. *)
Lemma get_news_frame w days q t :
  get_news w days q t
  = (fst (run (get_news w days q)), (t ++ snd (run (get_news w days q)))%list).
Proof.
  unfold run, get_news, bind, try_except, lift.
  destruct (datetime_sub_days (utcnow w) days) as [fd | e];
    [ | rewrite app_nil_r; reflexivity].
  unfold primary_attempt.
  destruct (truthy (env_value (NEWSAPI_KEY w))).
  - rewrite !run_fetch_news_newsapi.
    destruct (newsapi_outcome w q fd) as [news | e].
    + reflexivity.
    + rewrite !run_fetch_news_rss.
      destruct (rss_outcome w q fd); cbn [fst snd app];
        rewrite <- app_assoc; reflexivity.
  - unfold raise, lift. rewrite !run_fetch_news_rss.
    destruct (rss_outcome w q fd); reflexivity.
Qed.

Lemma dict_get_lookup (d : dict) k default v :
  lookup k d = Some v -> dict_get d k default = v.
Proof. unfold dict_get. intros ->. reflexivity. Qed.

(** An article with its five keys is rendered whole. *)
Lemma render_article_well_shaped art ws :
  well_shaped art ->
  render_article art ws = ((ws ++ article_widgets art)%list, None).
Proof.
  intros Hshape. unfold render_article, article_widgets.
  assert (Hkey : forall k, In k article_keys -> exists v, lookup k art = Some v).
  { intros k Hk. pose proof (well_shaped_lookup art k Hshape Hk).
    destruct (lookup k art) as [v | ]; [eauto | contradiction]. }
  destruct (Hkey "title" ltac:(cbn; auto)) as [title Htitle].
  destruct (Hkey "url" ltac:(cbn; auto)) as [url Hurl].
  destruct (Hkey "description" ltac:(cbn; auto 6)) as [descr Hdescr].
  rewrite Htitle, Hurl, Hdescr.
  rewrite (dict_get_lookup _ _ _ _ Htitle), (dict_get_lookup _ _ _ _ Hurl),
    (dict_get_lookup _ _ _ _ Hdescr).
  destruct (truthy descr); rewrite <- !app_assoc; reflexivity.
Qed.

Lemma render_articles_well_shaped news ws :
  Forall well_shaped news ->
  render_articles news ws
  = ((ws ++ flat_map article_widgets news)%list, None).
Proof.
  intros H. revert ws. induction H as [ | art rest Hart _ IH]; intros ws;
    cbn [render_articles flat_map].
  - rewrite app_nil_r. reflexivity.
  - rewrite (render_article_well_shaped _ _ Hart), IH, <- app_assoc.
    reflexivity.
Qed.

Lemma rules_of_article art :
  List.length (filter is_rule (article_widgets art)) = 1%nat.
Proof.
  unfold article_widgets. destruct (truthy (dict_get art "description" PNone));
    reflexivity.
Qed.

Lemma rules_of_articles news :
  List.length (filter is_rule (flat_map article_widgets news))
  = List.length news.
Proof.
  induction news as [ | art rest IH]; [reflexivity | ].
  cbn [flat_map]. rewrite filter_app, length_app, rules_of_article, IH.
  reflexivity.
Qed.

(** The articles of a returned list have the five keys. *)
Lemma get_news_ok_well_shaped w days q l t :
  run (get_news w days q) = (Ok l, t) -> Forall well_shaped l.
Proof.
  intros Hrun.
  destruct (get_news_source _ _ _ _ _ Hrun) as [fd [news [_ [Hsrc Hl]]]].
  assert (Hnews : Forall well_shaped news).
  { destruct Hsrc as [H | H];
      [exact (newsapi_outcome_well_shaped _ _ _ _ H)
      | exact (rss_outcome_well_shaped _ _ _ _ H)]. }
  apply Forall_forall. intros art Hart.
  exact (proj1 (Forall_forall _ _) Hnews art (newest_50_incl _ _ Hl art Hart)).
Qed.

Lemma get_news_ok_length w days q l t :
  run (get_news w days q) = (Ok l, t) -> (List.length l <= 50)%nat.
Proof.
  intros Hrun.
  destruct (get_news_source _ _ _ _ _ Hrun) as [fd [news [_ [_ Hl]]]].
  exact (newest_50_length _ _ Hl).
Qed.

(** X12. Whenever [get_news] returns for a tab, the tab is rendered whole:
    no subscript of an article raises [KeyError].  The tab shows its
    subheader, the notice that no news was found exactly when the list is
    empty, and then the widgets of each article in the order of the list,
    closed by one rule each; so it shows at most 50 rules. *)
Theorem render_tab_complete w q days news t' ws t :
  run (get_news w days q) = (Ok news, t') ->
  render_tab w q days ws t
  = mk_page (ws ++ tab_widgets days news)%list (t ++ t')%list None
  /\ (In Info (tab_widgets days news) <-> news = [])
  /\ List.length (filter is_rule (tab_widgets days news)) = List.length news
  /\ (List.length (filter is_rule (tab_widgets days news)) <= 50)%nat.
Proof.
  intros Hrun.
  pose proof (get_news_ok_well_shaped _ _ _ _ _ Hrun) as Hnews.
  assert (Hrules : List.length (filter is_rule (tab_widgets days news))
                   = List.length news).
  { unfold tab_widgets. cbn [filter is_rule]. rewrite filter_app, length_app.
    rewrite rules_of_articles. destruct news; reflexivity. }
  split; [ | split; [ | split]].
  - unfold render_tab. rewrite get_news_frame, Hrun. cbn [fst snd].
    rewrite (render_articles_well_shaped _ _ Hnews). unfold tab_widgets.
    destruct news as [ | art rest]; cbn [app];
      rewrite <- !app_assoc; reflexivity.
  - unfold tab_widgets. split.
    + intros [H | H]; [discriminate | ].
      destruct news as [ | art rest]; [reflexivity | ]. exfalso.
      cbn [app] in H. apply in_flat_map in H. destruct H as [a [_ Ha]].
      unfold article_widgets in Ha.
      destruct (truthy (dict_get a "description" PNone)); cbn in Ha;
        intuition discriminate.
    + intros ->. right. left. reflexivity.
  - exact Hrules.
  - rewrite Hrules. exact (get_news_ok_length _ _ _ _ _ Hrun).
Qed.

Lemma render_tab_raises w q days e ws t :
  fst (run (get_news w days q)) = Raise e ->
  render_tab w q days ws t
  = mk_page (ws ++ [Subheader days])%list (t ++ window_calls w q days)%list
      (Some (Raised e)).
Proof.
  intros Hrun. unfold render_tab. rewrite get_news_frame, Hrun. reflexivity.
Qed.

Lemma render_tab_returns w q days news ws t :
  fst (run (get_news w days q)) = Ok news ->
  render_tab w q days ws t
  = mk_page (ws ++ tab_widgets days news)%list (t ++ window_calls w q days)%list
      None.
Proof.
  intros Hrun. unfold window_calls.
  destruct (run (get_news w days q)) as [r t'] eqn:Hget. cbn [fst] in Hrun.
  subst r. unfold render_tab. rewrite get_news_frame, Hget. cbn [fst snd].
  rewrite (render_articles_well_shaped _ _
             (get_news_ok_well_shaped _ _ _ _ _ Hget)).
  unfold tab_widgets.
  destruct news as [ | art rest]; cbn [app]; rewrite <- !app_assoc;
    reflexivity.
Qed.

(** The loop over the tabs, window by window. *)
Lemma render_tabs_windows w q windows ws t :
  render_tabs w q windows ws t
  = mk_page
      (ws ++ flat_map (window_widgets w q) (fetched_windows w q windows))%list
      (t ++ flat_map (window_calls w q) (fetched_windows w q windows))%list
      (first_failure w q windows).
Proof.
  revert ws t. induction windows as [ | days rest IH]; intros ws t;
    cbn [render_tabs fetched_windows first_failure].
  - rewrite !app_nil_r. reflexivity.
  - destruct (fst (run (get_news w days q))) as [news | e] eqn:Hrun.
    + rewrite (render_tab_returns _ _ _ _ _ _ Hrun), IH. cbn [flat_map].
      unfold window_widgets at 2. rewrite Hrun, <- !app_assoc. reflexivity.
    + rewrite (render_tab_raises _ _ _ _ _ _ Hrun). cbn [flat_map].
      unfold window_widgets. rewrite Hrun, !app_nil_r. reflexivity.
Qed.

Lemma first_failure_raised w q windows key :
  first_failure w q windows <> Some (KeyError key).
Proof.
  induction windows as [ | days rest IH]; cbn [first_failure];
    [discriminate | ].
  destruct (fst (run (get_news w days q))); [exact IH | discriminate].
Qed.

Lemma fetched_windows_all w q windows :
  first_failure w q windows = None -> fetched_windows w q windows = windows.
Proof.
  induction windows as [ | days rest IH]; cbn [first_failure fetched_windows];
    [reflexivity | ].
  destruct (fst (run (get_news w days q))); [ | discriminate].
  intros H. rewrite (IH H). reflexivity.
Qed.

(** X13. The page fetches the windows of 7, 30, 90 and 180 days in this
    order, each with the query built from the filter, and stops at the first
    window at which [get_news] raises: that window shows its subheader
    alone, and the windows after it are neither fetched nor shown.  The page
    never stops for a [KeyError]; when it is not stopped, all four windows
    were fetched. *)
Theorem news_tabs_windows w filter :
  let q := full_query filter in
  news_tabs w filter
  = mk_page (flat_map (window_widgets w q) (fetched_windows w q tabs))
      (flat_map (window_calls w q) (fetched_windows w q tabs))
      (first_failure w q tabs)
  /\ (forall key, stopped_by (news_tabs w filter) <> Some (KeyError key))
  /\ (stopped_by (news_tabs w filter) = None ->
      fetched_windows w q tabs = [7; 30; 90; 180])
  /\ (forall e, fst (run (get_news w 7 q)) = Raise e ->
        news_tabs w filter
        = mk_page [Subheader 7] (window_calls w q 7) (Some (Raised e))).
Proof.
  intros q.
  assert (Hpage : news_tabs w filter
                  = mk_page
                      (flat_map (window_widgets w q) (fetched_windows w q tabs))
                      (flat_map (window_calls w q) (fetched_windows w q tabs))
                      (first_failure w q tabs)).
  { unfold news_tabs. fold q. rewrite render_tabs_windows. reflexivity. }
  split; [exact Hpage | split; [ | split]].
  - intros key. rewrite Hpage. apply first_failure_raised.
  - rewrite Hpage. cbn [stopped_by]. apply fetched_windows_all.
  - intros e He. rewrite Hpage. unfold tabs.
    cbn [fetched_windows first_failure]. rewrite He. cbn [flat_map].
    unfold window_widgets. rewrite He, !app_nil_r. reflexivity.
Qed.

Lemma news_tabs_windows_witness :
  news_tabs (world_no_key [entry_recent; entry_stale; entry_undated]) "  "
  = mk_page [Subheader 7] [CallFallback DEFAULT_QUERY sample_from]
      (Some (Raised TypeError))
  /\ stopped_by (news_tabs world_timeout "") = None
  /\ List.length (calls (news_tabs world_timeout "")) = 8%nat.
Proof.
  destruct (news_tabs_windows
              (world_no_key [entry_recent; entry_stale; entry_undated]) "  ")
    as [_ [_ [_ Hstop]]].
  destruct (news_tabs_windows world_timeout "") as [Hpage _].
  split; [exact (Hstop TypeError eq_refl) | ].
  rewrite Hpage. split; reflexivity.
Defined.

Lemma render_tab_complete_witness :
  render_tab world_timeout DEFAULT_QUERY 7 [] []
  = mk_page
      [Subheader 7; Columns;
       Link (PStr "Nifty options open interest climbs")
         (PStr "https://news.example/nifty-oi");
       Caption (PStr "Mint") (PStr "2024-03-13T09:30:00");
       Write (PStr "Open interest rose ahead of expiry."); Blank; Rule]
      [CallPrimary DEFAULT_QUERY sample_from;
       CallFallback DEFAULT_QUERY sample_from]
      None.
Proof.
  rewrite (proj1 (render_tab_complete world_timeout DEFAULT_QUERY 7
                    [rss_article_of entry_recent
                       (Some (mk_datetime 2024 3 13 9 30 0 0))]
                    [CallPrimary DEFAULT_QUERY sample_from;
                     CallFallback DEFAULT_QUERY sample_from]
                    [] [] eq_refl)).
  reflexivity.
Defined.

(** * What the fallback path can return *)

(** X14. Without a usable key, every article [get_news] returns is the
    article of an entry of the feed whose publish time is absent or not
    earlier than the [from_date] of the call: nothing older than the window
    and nothing that is not in the feed is returned. *)
Theorem get_news_fallback_within_window w days q fd entries l t :
  truthy (env_value (NEWSAPI_KEY w)) = false ->
  datetime_sub_days (utcnow w) days = Ok fd ->
  feedparser_parse w q = Ok entries ->
  run (get_news w days q) = (Ok l, t) ->
  forall art, In art l ->
    exists e,
      In e entries
      /\ art = rss_article_of e (pub_of e)
      /\ forall p, pub_of e = Some p -> datetime_lt p fd = false.
Proof.
  intros Hkey Hfd Hfeed Hrun art Hart.
  rewrite (run_get_news_falsy_key _ _ _ _ Hkey Hfd) in Hrun.
  injection Hrun as Hl _. bind_inv Hl news Hnews.
  unfold rss_outcome in Hnews. rewrite Hfeed in Hnews. cbn [rbind] in Hnews.
  rewrite (rss_loop_filter_map _ _ (rss_loop_ok_valid _ _ _ Hnews)) in Hnews.
  injection Hnews as <-.
  pose proof (newest_50_incl _ _ Hl art Hart) as Hin.
  apply in_map_iff in Hin. destruct Hin as [e [<- He]].
  apply filter_In in He. destruct He as [He Hkept].
  exists e. split; [exact He | split; [reflexivity | ]].
  intros p Hp. unfold kept, too_old in Hkept. rewrite Hp in Hkept.
  destruct (datetime_lt p fd); [discriminate | reflexivity].
Qed.

Lemma get_news_fallback_within_window_witness :
  exists e,
    In e [entry_stale; entry_recent]
    /\ rss_article_of entry_recent (Some (mk_datetime 2024 3 13 9 30 0 0))
       = rss_article_of e (pub_of e)
    /\ forall p, pub_of e = Some p -> datetime_lt p sample_from = false.
Proof.
  apply (get_news_fallback_within_window
           (world_no_key [entry_stale; entry_recent]) 7 DEFAULT_QUERY
           sample_from [entry_stale; entry_recent]
           [rss_article_of entry_recent
              (Some (mk_datetime 2024 3 13 9 30 0 0))]
           [CallFallback DEFAULT_QUERY sample_from]
           eq_refl eq_refl eq_refl eq_refl).
  left. reflexivity.
Defined.

(** * When the filter changes the query *)

Lemma utf8_chars_nonempty s : Forall (fun ch => ch <> "") (utf8_chars s).
Proof.
  induction s as [ | c s IH]; cbn [utf8_chars]; [constructor | ].
  destruct (utf8_chars s) as [ | ch rest];
    [repeat constructor; discriminate | ].
  inversion IH as [ | ? ? Hch Hrest]; subst.
  destruct ch as [ | c' ch']; [contradiction | ].
  destruct (is_continuation c'); repeat constructor;
    try discriminate; assumption.
Qed.

Lemma lstrip_chars_nil l :
  lstrip_chars l = [] -> Forall (fun ch => is_space ch = true) l.
Proof.
  induction l as [ | ch l IH]; cbn [lstrip_chars]; [constructor | ].
  destruct (is_space ch) eqn:Hch; [ | discriminate].
  intros H. constructor; [exact Hch | exact (IH H)].
Qed.

Lemma lstrip_chars_suffix l :
  exists skipped, l = (skipped ++ lstrip_chars l)%list.
Proof.
  induction l as [ | ch l [skipped IH]]; cbn [lstrip_chars];
    [exists []; reflexivity | ].
  destruct (is_space ch); [ | exists []; reflexivity].
  exists (ch :: skipped). cbn [app]. rewrite <- IH. reflexivity.
Qed.

Lemma lstrip_chars_head l ch rest :
  lstrip_chars l = ch :: rest -> is_space ch = false.
Proof.
  induction l as [ | c l IH]; cbn [lstrip_chars]; [discriminate | ].
  destruct (is_space c) eqn:Hc; [exact IH | ].
  intros H. injection H as <- _. exact Hc.
Qed.

Lemma concat_nonempty l :
  Forall (fun ch => ch <> "") l -> String.concat "" l = "" -> l = [].
Proof.
  destruct 1 as [ | ch l Hch _]; [reflexivity | ].
  destruct ch as [ | c ch]; [contradiction | ].
  destruct l; discriminate.
Qed.

(** A string that strips to the empty string is made of whitespace. *)
Lemma str_strip_empty s :
  str_strip s = "" -> Forall (fun ch => is_space ch = true) (utf8_chars s).
Proof.
  unfold str_strip. intros H.
  destruct (lstrip_chars_suffix (utf8_chars s)) as [skipped Hl].
  destruct (lstrip_chars_suffix (rev (lstrip_chars (utf8_chars s))))
    as [skipped' Hr].
  apply concat_nonempty in H.
  - assert (Hnil : lstrip_chars (rev (lstrip_chars (utf8_chars s))) = []).
    { rewrite <- (rev_involutive (lstrip_chars _)), H. reflexivity. }
    apply lstrip_chars_nil in Hnil.
    destruct (lstrip_chars (utf8_chars s)) as [ | ch rest] eqn:Hstrip.
    + exact (lstrip_chars_nil _ Hstrip).
    + exfalso. pose proof (lstrip_chars_head _ _ _ Hstrip) as Hch.
      assert (Hin : In ch (rev (ch :: rest)))
        by (apply in_rev; rewrite rev_involutive; left; reflexivity).
      rewrite (proj1 (Forall_forall _ _) Hnil ch Hin) in Hch. discriminate.
  - apply Forall_rev.
    assert (Hall : Forall (fun ch => ch <> "")
                     (rev (lstrip_chars (utf8_chars s)))).
    { apply Forall_rev. pose proof (utf8_chars_nonempty s) as Hne.
      rewrite Hl in Hne. exact (proj2 (proj1 (Forall_app _ _ _) Hne)). }
    rewrite Hr in Hall. exact (proj2 (proj1 (Forall_app _ _ _) Hall)).
Qed.

Lemma append_cancel_l a b : (a ++ b)%string = a -> b = "".
Proof.
  induction a as [ | c a IH]; cbn [append]; [auto | ].
  intros H. injection H as H. exact (IH H).
Qed.

(** X15. The filter leaves the query unchanged exactly when it is empty or
    made of whitespace only: a filter with any other character always
    extends the default query. *)
Theorem full_query_default_iff filter :
  full_query filter = DEFAULT_QUERY
  <-> Forall (fun ch => is_space ch = true) (utf8_chars filter).
Proof.
  split.
  - intros H. apply str_strip_empty. unfold full_query in H.
    destruct (String.eqb_spec (str_strip filter) "") as [Hs | Hs];
      [exact Hs | exfalso].
    rewrite (proj2 (truthy_str _) Hs) in H.
    apply append_cancel_l in H. discriminate.
  - intros H. unfold full_query. rewrite (str_strip_spaces _ H). reflexivity.
Qed.

Lemma full_query_default_iff_witness :
  full_query "   " = DEFAULT_QUERY
  /\ full_query " nifty " <> DEFAULT_QUERY.
Proof.
  split.
  - apply (proj2 (full_query_default_iff "   ")).
    repeat constructor.
  - intros H. apply (proj1 (full_query_default_iff " nifty ")) in H.
    inversion H as [ | ? ? _ Hrest]. inversion Hrest as [ | ? ? Hn _].
    discriminate.
Defined.
